(** * IMDBspider: the chart-extraction pipeline

    A shallow embedding of [IMDBapp/control_panel.py] (the Flask control
    panel) and of [IMDBapp/proyecto_imdb/spiders/imdb.py] (the Scrapy
    spider), followed by the properties of the pipeline: filter
    normalisation, URL construction, the fetch-with-retry step, the two
    extractors, the merger and the result assembly.

    Conventions of the embedding.
    - Python [str] is [string], a text of ASCII characters: the markup,
      the urls and the form fields are taken to hold no other character,
      so [\d] is [0-9], [re.IGNORECASE] is ASCII case folding, and
      [str.strip] and [int] see the ASCII white space only.
    - Python [int] is [Z]; [int(...)] of a text with more than 4300 digits
      raises [ValueError], as the interpreter does by default.
    - A [dict] keyed by strings whose values are read back by key is a
      [gmap string _]; a decoded JSON object keeps its pairs in a list.
    - A function that can raise returns a [result]; the network is an
      oracle and [fetch_chart] threads the trace of the requests it sent.
    - [json.loads] belongs to the Python library, not to this repository:
      the parsers take the decoder as an argument [loads], whose outcome is
      a value, [json.JSONDecodeError], or one of the two other exceptions
      [json.loads] raises on a text ([RecursionError], [ValueError]);
      [Json.loads] is a reference decoder used to run the parsers on
      concrete markup. *)

From Stdlib Require Import ZArith Ascii String List Bool Lia Sorted.
From stdpp Require Import base option gmap strings list.

Local Open Scope Z_scope.

(** ** Python runtime: exceptions, text, integers, slices *)

Module Py.

Inductive exn : Type :=
| TypeError
| ValueError
| RecursionError
| HTTPError (status : Z)
| ConnectionError.

Inductive result (A : Type) : Type :=
| Ok (a : A)
| Raise (e : exn).
Arguments Ok {A} a.
Arguments Raise {A} e.

Definition bind {A B} (r : result A) (k : A -> result B) : result B :=
  match r with
  | Ok a => k a
  | Raise e => Raise e
  end.

Definition code (c : ascii) : nat := nat_of_ascii c.

Definition is_digit (c : ascii) : bool :=
  (48 <=? code c)%nat && (code c <=? 57)%nat.

(** [str.isspace] on ASCII: TAB..CR, FS..US and the space. *)
Definition is_space (c : ascii) : bool :=
  ((9 <=? code c)%nat && (code c <=? 13)%nat)
  || ((28 <=? code c)%nat && (code c <=? 32)%nat).

Definition lower (c : ascii) : ascii :=
  if (65 <=? code c)%nat && (code c <=? 90)%nat
  then ascii_of_nat (code c + 32)
  else c.

(** C's [isspace], which [int] passes over around an ASCII literal:
    TAB..CR and the space. *)
Definition is_c_space (c : ascii) : bool :=
  ((9 <=? code c)%nat && (code c <=? 13)%nat) || (code c =? 32)%nat.

Fixpoint lstrip_by (space : ascii -> bool) (s : string) : string :=
  match s with
  | String c s' => if space c then lstrip_by space s' else s
  | EmptyString => EmptyString
  end.

(** A character is kept when it is no space or when something other than
    spaces follows it. *)
Fixpoint rstrip_by (space : ascii -> bool) (s : string) : string :=
  match s with
  | EmptyString => EmptyString
  | String c s' =>
      match rstrip_by space s' with
      | EmptyString => if space c then EmptyString else String c EmptyString
      | t => String c t
      end
  end.

(** [s.strip()] *)
Definition strip (s : string) : string := rstrip_by is_space (lstrip_by is_space s).

Definition digit_value (c : ascii) : Z := Z.of_nat (code c) - 48.

Fixpoint int_of_digits_from (acc : Z) (ds : string) : Z :=
  match ds with
  | EmptyString => acc
  | String c ds' => int_of_digits_from (10 * acc + digit_value c) ds'
  end.

(** The number a text of digits writes. *)
Definition digits_value (ds : string) : Z := int_of_digits_from 0 ds.

(** [sys.int_info.default_max_str_digits]: [int] refuses a text with more
    digits. *)
Definition max_str_digits : nat := 4300.

(** [int(ds)] for a string [ds] that matched [\d+]. *)
Definition int_of_digits (ds : string) : result Z :=
  if (max_str_digits <? String.length ds)%nat then Raise ValueError
  else Ok (digits_value ds).

(** The digits of an integer literal: groups of digits separated by
    single underscores.  [after_digit] tells whether the previous
    character was a digit (an underscore is legal only there, and the
    literal must end on a digit); [count] is the number of digits read. *)
Fixpoint int_body (after_digit : bool) (acc : Z) (count : nat) (s : string)
  : option (Z * nat) :=
  match s with
  | EmptyString => if after_digit then Some (acc, count) else None
  | String c s' =>
      if is_digit c then int_body true (10 * acc + digit_value c) (S count) s'
      else if Ascii.eqb c "_" then
        (if after_digit then int_body false acc count s' else None)
      else None
  end.

(** [int(value)] for the values a form field can hold: [None] is
    Python's [None] (a [TypeError]); a string loses the C spaces around
    it, may carry a sign, and must then be an integer literal of at most
    [max_str_digits] digits (else a [ValueError]). *)
Definition int (value : option string) : result Z :=
  match value with
  | None => Raise TypeError
  | Some s =>
      let t := rstrip_by is_c_space (lstrip_by is_c_space s) in
      let signed :=
        match t with
        | String "-" t' => int_body false 0 0 t' ≫= (fun p => Some (- p.1, p.2))
        | String "+" t' => int_body false 0 0 t'
        | _ => int_body false 0 0 t
        end in
      match signed with
      | Some (n, count) =>
          if (max_str_digits <? count)%nat then Raise ValueError else Ok n
      | None => Raise ValueError
      end
  end.

(** [xs[:n]]: the first [n] entries, or all but the last [-n] when [n]
    is negative. *)
Definition slice_to {A} (xs : list A) (n : Z) : list A :=
  if n <? 0
  then take (Z.to_nat (Z.of_nat (length xs) + n)) xs
  else take (Z.to_nat n) xs.

(** [len(s)] *)
Definition len (s : string) : Z := Z.of_nat (String.length s).

End Py.

(** ** The regular expressions of the two parsers

    Each pattern is a sequence of literals, greedy digit runs and negated
    classes, so a match attempt at a position has one outcome and
    backtracking never changes it: after [tt\d+] the next pattern
    character is [/], which is no digit, and the tag part of the script
    pattern ends at the first [>]. *)

Module Re.
Import Py.

(** [s] without its prefix [p], when [s] starts with [p]. *)
Fixpoint strip_prefix (p s : string) : option string :=
  match p, s with
  | EmptyString, _ => Some s
  | String a p', String b s' =>
      if Ascii.eqb a b then strip_prefix p' s' else None
  | String _ _, EmptyString => None
  end.

(** The same under [re.IGNORECASE]. *)
Fixpoint strip_prefix_ci (p s : string) : option string :=
  match p, s with
  | EmptyString, _ => Some s
  | String a p', String b s' =>
      if Ascii.eqb (lower a) (lower b) then strip_prefix_ci p' s' else None
  | String _ _, EmptyString => None
  end.

(** The longest run of digits at the head of [s], and what follows. *)
Fixpoint span_digits (s : string) : string * string :=
  match s with
  | String c s' =>
      if is_digit c
      then let (ds, r) := span_digits s' in (String c ds, r)
      else (EmptyString, s)
  | EmptyString => (EmptyString, EmptyString)
  end.

(** [\d+] *)
Definition digits1 (s : string) : option (string * string) :=
  match span_digits s with
  | (EmptyString, _) => None
  | (ds, r) => Some (ds, r)
  end.

(** [/title/(tt\d+)/] at the head of [s]: group 1 and the rest. *)
Definition match_tconst (s : string) : option (string * string) :=
  r ← strip_prefix "/title/tt" s;
  '(ds, r1) ← digits1 r;
  r2 ← strip_prefix "/" r1;
  Some ("tt" +:+ ds, r2).

(** [/title/(tt\d+)/\?ref_=chttp_t_(\d+)] at the head of [s]: the two
    groups and the rest. *)
Definition match_anchor (s : string) : option ((string * string) * string) :=
  '(tconst, r) ← match_tconst s;
  r1 ← strip_prefix "?ref_=chttp_t_" r;
  '(rank, r2) ← digits1 r1;
  Some ((tconst, rank), r2).

Section Scan.
Context {A : Type} (m : string -> option (A * string)).

(** [re.search]: the match at the leftmost position that has one. *)
Fixpoint search (s : string) : option A :=
  match m s with
  | Some (a, _) => Some a
  | None =>
      match s with
      | String _ s' => search s'
      | EmptyString => None
      end
  end.

(** [re.findall]: the matches from left to right, each attempt
    starting where the previous match ended.  [skip] counts the
    characters of the last match still to be passed over. *)
Fixpoint findall_from (skip : nat) (s : string) : list A :=
  match s with
  | EmptyString => []
  | String _ s' =>
      match skip with
      | S k => findall_from k s'
      | O =>
          match m s with
          | Some (a, rest) =>
              a :: findall_from (String.length s' - String.length rest) s'
          | None => findall_from 0 s'
          end
      end
  end.

Definition findall (s : string) : list A := findall_from 0 s.
End Scan.

Definition dquote : string := String "034"%char EmptyString.

(** [type="application/ld\+json"] *)
Definition ldjson_type : string :=
  "type=" +:+ dquote +:+ "application/ld+json" +:+ dquote.

(** [[^>]*>]: the text before the first [>], and the text after it. *)
Fixpoint split_gt (s : string) : option (string * string) :=
  match s with
  | EmptyString => None
  | String c s' =>
      if Ascii.eqb c ">" then Some (EmptyString, s')
      else '(seg, r) ← split_gt s'; Some (String c seg, r)
  end.

Fixpoint contains_ci (p s : string) : bool :=
  match strip_prefix_ci p s with
  | Some _ => true
  | None =>
      match s with
      | String _ s' => contains_ci p s'
      | EmptyString => false
      end
  end.

(** [(.*?)p] with [re.DOTALL]: the shortest text followed by [p]. *)
Fixpoint until_ci (p s : string) : option (string * string) :=
  match strip_prefix_ci p s with
  | Some r => Some (EmptyString, r)
  | None =>
      match s with
      | String c s' => '(b, r) ← until_ci p s'; Some (String c b, r)
      | EmptyString => None
      end
  end.

(** [<script[^>]*type="application/ld\+json"[^>]*>(.*?)</script>] at the
    head of [s], case-insensitive: the group and the rest.  Neither
    [[^>]*] nor the type literal holds a [>], so the literal lies in the
    tag, before the first [>]. *)
Definition match_script (s : string) : option (string * string) :=
  r ← strip_prefix_ci "<script" s;
  '(tag, after) ← split_gt r;
  if contains_ci ldjson_type tag then until_ci "</script>" after else None.

End Re.

(** ** Decoded JSON values and their dictionaries *)

Module Json.
Import Py.

(** What [json.loads] returns: [None], [bool], [int], [float], [str],
    [list] and [dict].  A float keeps the text of its literal. *)
#[warnings="-register-all"]
Inductive json : Type :=
| JNull
| JBool (b : bool)
| JInt (n : Z)
| JFloat (lit : string)
| JStr (s : string)
| JArr (items : list json)
| JObj (pairs : list (string * json)).

Definition dict : Type := list (string * json).

Fixpoint lookup_key (k : string) (d : dict) : option json :=
  match d with
  | [] => None
  | (k', v) :: d' => if String.eqb k k' then Some v else lookup_key k d'
  end.

(** [d.get(k)]: Python's [None] when the key is absent. *)
Definition get (d : dict) (k : string) : json :=
  default JNull (lookup_key k d).

(** [k in d] *)
Definition has_key (k : string) (d : dict) : bool :=
  bool_decide (is_Some (lookup_key k d)).

(** [d[k] = v]: a present key keeps its place and takes the new value. *)
Fixpoint set_key (k : string) (v : json) (d : dict) : dict :=
  match d with
  | [] => [(k, v)]
  | (k', v') :: d' =>
      if String.eqb k k' then (k, v) :: d' else (k', v') :: set_key k v d'
  end.

(** *** A reference decoder for [json.loads] *)

Definition is_ws (c : ascii) : bool :=
  Ascii.eqb c " " || Ascii.eqb c "009" || Ascii.eqb c "010" || Ascii.eqb c "013".

Fixpoint skip_ws (s : string) : string :=
  match s with
  | String c s' => if is_ws c then skip_ws s' else s
  | EmptyString => EmptyString
  end.

Definition hex_value (c : ascii) : option nat :=
  let n := code c in
  if (48 <=? n)%nat && (n <=? 57)%nat then Some (n - 48)%nat
  else if (65 <=? n)%nat && (n <=? 70)%nat then Some (n - 55)%nat
  else if (97 <=? n)%nat && (n <=? 102)%nat then Some (n - 87)%nat
  else None.

Definition hex4 (a b c d : ascii) : option nat :=
  x ← hex_value a; y ← hex_value b; z ← hex_value c; w ← hex_value d;
  Some (((x * 16 + y) * 16 + z) * 16 + w)%nat.

(** The UTF-8 bytes of one UTF-16 code unit. *)
Definition utf8 (u : nat) : string :=
  let byte (n : nat) := ascii_of_nat n in
  if (u <? 128)%nat then String (byte u) EmptyString
  else if (u <? 2048)%nat then
    String (byte (192 + u / 64)%nat)
      (String (byte (128 + u mod 64)%nat) EmptyString)
  else
    String (byte (224 + u / 4096)%nat)
      (String (byte (128 + (u / 64) mod 64)%nat)
         (String (byte (128 + u mod 64)%nat) EmptyString)).

Definition escape_char (c : ascii) : option ascii :=
  if Ascii.eqb c "034" then Some "034"%char
  else if Ascii.eqb c "\" then Some "\"%char
  else if Ascii.eqb c "/" then Some "/"%char
  else if Ascii.eqb c "b" then Some "008"%char
  else if Ascii.eqb c "f" then Some "012"%char
  else if Ascii.eqb c "n" then Some "010"%char
  else if Ascii.eqb c "r" then Some "013"%char
  else if Ascii.eqb c "t" then Some "009"%char
  else None.

(** The text of a string literal after its opening quote, and the rest
    after its closing quote.  Control characters are refused. *)
Fixpoint scan_string (s : string) : option (string * string) :=
  match s with
  | EmptyString => None
  | String c s' =>
      if Ascii.eqb c "034" then Some (EmptyString, s')
      else if Ascii.eqb c "\" then
        match s' with
        | String "u" (String h1 (String h2 (String h3 (String h4 r)))) =>
            u ← hex4 h1 h2 h3 h4;
            '(t, r') ← scan_string r;
            Some (utf8 u +:+ t, r')
        | String e r =>
            x ← escape_char e;
            '(t, r') ← scan_string r;
            Some (String x t, r')
        | EmptyString => None
        end
      else if (code c <? 32)%nat then None
      else '(t, r') ← scan_string s'; Some (String c t, r')
  end.

(** What goes wrong inside [json.loads] without being a
    [json.JSONDecodeError]: a nesting deeper than the interpreter allows
    ([RecursionError]) and an integer literal of more than
    [max_str_digits] digits ([ValueError]). *)
Inductive crash : Type :=
| DeepNesting
| LongInteger.

Definition crash_exn (c : crash) : exn :=
  match c with
  | DeepNesting => RecursionError
  | LongInteger => ValueError
  end.

(** The outcome of [json.loads] on a text. *)
Inductive outcome : Type :=
| Decoded (v : json)
| DecodeError
| Crash (c : crash).

(** The outcome of scanning one piece of the text. *)
Inductive scanned (A : Type) : Type :=
| Scanned (a : A) (rest : string)
| Malformed
| Crashed (c : crash).
Arguments Scanned {A} a rest.
Arguments Malformed {A}.
Arguments Crashed {A} c.

Definition of_option {A} (o : option (A * string)) : scanned A :=
  match o with
  | Some (a, r) => Scanned a r
  | None => Malformed
  end.

(** A number literal: an optional minus sign, then [0] or a digit run
    without leading zero, then an optional fraction (a dot and digits)
    and an optional exponent ([e] or [E], a sign, digits).  A literal
    with neither fraction nor exponent is an [int], and is refused with
    a [ValueError] when it has more than [max_str_digits] digits. *)
Definition scan_number (s : string) : scanned json :=
  let '(neg, s1) :=
    match s with
    | String "-" r => (true, r)
    | _ => (false, s)
    end in
  match (match s1 with
         | String "0" r => Some ("0"%string, r)
         | _ => Re.digits1 s1
         end) with
  | None => Malformed
  | Some (ip, s2) =>
      let '(frac, s3) :=
        match s2 with
        | String "." r =>
            match Re.digits1 r with
            | Some (ds, r') => ("." +:+ ds, r')
            | None => (EmptyString, s2)
            end
        | _ => (EmptyString, s2)
        end in
      let '(ex, s4) :=
        match s3 with
        | String e r =>
            if Ascii.eqb e "e" || Ascii.eqb e "E" then
              let '(sg, r1) :=
                match r with
                | String "-" r' => ("-"%string, r')
                | String "+" r' => ("+"%string, r')
                | _ => (EmptyString, r)
                end in
              match Re.digits1 r1 with
              | Some (ds, r2) => (String e (sg +:+ ds), r2)
              | None => (EmptyString, s3)
              end
            else (EmptyString, s3)
        | EmptyString => (EmptyString, s3)
        end in
      let sign := if neg then "-"%string else EmptyString in
      match frac, ex with
      | EmptyString, EmptyString =>
          match int_of_digits ip with
          | Ok n => Scanned (JInt (if neg then - n else n)) s4
          | Raise _ => Crashed LongInteger
          end
      | _, _ => Scanned (JFloat (sign +:+ ip +:+ frac +:+ ex)) s4
      end
  end.

Definition scan_constant (s : string) : scanned json :=
  match Re.strip_prefix "null" s with Some r => Scanned JNull r | None =>
  match Re.strip_prefix "true" s with Some r => Scanned (JBool true) r | None =>
  match Re.strip_prefix "false" s with Some r => Scanned (JBool false) r | None =>
  match scan_number s with
  | Scanned v r => Scanned v r
  | Crashed c => Crashed c
  | Malformed =>
  match Re.strip_prefix "NaN" s with Some r => Scanned (JFloat "NaN") r | None =>
  match Re.strip_prefix "Infinity" s with Some r => Scanned (JFloat "Infinity") r | None =>
  match Re.strip_prefix "-Infinity" s with Some r => Scanned (JFloat "-Infinity") r | None =>
  Malformed end end end end end end end.

(** The scanner proper.  [depth] is the number of containers that may
    still be opened inside one another; [fuel] bounds the number of
    calls, and [loads] gives two units for every character of the
    text. *)
Fixpoint scan_once (fuel depth : nat) (s : string) : scanned json :=
  match fuel with
  | O => Malformed
  | S f =>
      match s with
      | String "034" r =>
          match scan_string r with
          | Some (t, r') => Scanned (JStr t) r'
          | None => Malformed
          end
      | String "{" r =>
          match depth with
          | O => Crashed DeepNesting
          | S d =>
              match skip_ws r with
              | String "}" r' => Scanned (JObj []) r'
              | r' =>
                  match scan_members f d [] r' with
                  | Scanned m r'' => Scanned (JObj m) r''
                  | Malformed => Malformed
                  | Crashed c => Crashed c
                  end
              end
          end
      | String "[" r =>
          match depth with
          | O => Crashed DeepNesting
          | S d =>
              match skip_ws r with
              | String "]" r' => Scanned (JArr []) r'
              | r' =>
                  match scan_items f d [] r' with
                  | Scanned l r'' => Scanned (JArr l) r''
                  | Malformed => Malformed
                  | Crashed c => Crashed c
                  end
              end
          end
      | _ => scan_constant s
      end
  end
with scan_members (fuel depth : nat) (acc : dict) (s : string) : scanned dict :=
  match fuel with
  | O => Malformed
  | S f =>
      match s with
      | String "034" r =>
          match scan_string r with
          | None => Malformed
          | Some (k, r1) =>
              match skip_ws r1 with
              | String ":" r2 =>
                  match scan_once f depth (skip_ws r2) with
                  | Malformed => Malformed
                  | Crashed c => Crashed c
                  | Scanned v r3 =>
                      let acc' := set_key k v acc in
                      match skip_ws r3 with
                      | String "}" r4 => Scanned acc' r4
                      | String "," r4 => scan_members f depth acc' (skip_ws r4)
                      | _ => Malformed
                      end
                  end
              | _ => Malformed
              end
          end
      | _ => Malformed
      end
  end
with scan_items (fuel depth : nat) (acc : list json) (s : string)
  : scanned (list json) :=
  match fuel with
  | O => Malformed
  | S f =>
      match scan_once f depth s with
      | Malformed => Malformed
      | Crashed c => Crashed c
      | Scanned v r1 =>
          let acc' := acc ++ [v] in
          match skip_ws r1 with
          | String "]" r2 => Scanned acc' r2
          | String "," r2 => scan_items f depth acc' (skip_ws r2)
          | _ => Malformed
          end
      end
  end.

(** The depth of nesting the reference decoder accepts.  The interpreter
    raises [RecursionError] once the decoder's calls reach its recursion
    limit (1000 by default), less the calls already on the stack. *)
Definition nesting_limit : nat := 990.

(** [json.loads(s)]: one value between optional white space.

    The reference decoder stands for the library on the sample texts
    only; the properties are stated for every decoder.  It departs from
    the library in three places, none of which the samples reach: a float
    keeps the text of its literal instead of its value; a [\u] escape is
    encoded on its own, so that a surrogate pair gives two units instead
    of one character; and the depth at which the interpreter gives up,
    which depends on the calls already on its stack, is the fixed
    [nesting_limit]. *)
Definition loads (s : string) : outcome :=
  match scan_once (2 * String.length s + 2) nesting_limit (skip_ws s) with
  | Scanned v r =>
      match skip_ws r with
      | EmptyString => Decoded v
      | String _ _ => DecodeError
      end
  | Malformed => DecodeError
  | Crashed c => Crash c
  end.

(** Literals are written with ['] where the text has a double quote. *)
Fixpoint dq (s : string) : string :=
  match s with
  | EmptyString => EmptyString
  | String c s' => String (if Ascii.eqb c "'" then "034"%char else c) (dq s')
  end.

End Json.

(** ** The record both parsers emit: a dict with these eleven keys *)

Module Movie.
Import Json.

Record MovieRecord : Type := {
  rank : json;
  url : json;
  name : json;
  alternateName : json;
  description : json;
  image : json;
  ratingValue : json;
  ratingCount : json;
  contentRating : json;
  genre : json;
  duration : json
}.

(** [v == s] for a decoded value [v] and a string literal [s]. *)
Definition equals_str (v : json) (s : string) : bool :=
  match v with
  | JStr t => String.eqb t s
  | _ => false
  end.

(** [isinstance(candidate, dict) and candidate.get('@type') == 'ItemList'
    and 'itemListElement' in candidate] *)
Definition is_item_list (candidate : json) : bool :=
  match candidate with
  | JObj d => equals_str (get d "@type") "ItemList" && has_key "itemListElement" d
  | _ => false
  end.

(** The values a [for] loop draws from a decoded value: the entries of a
    list, the characters of a string, the keys of a dict; anything else
    is not iterable. *)
Definition iterate (v : json) : Py.result (list json) :=
  match v with
  | JArr items => Py.Ok items
  | JStr s => Py.Ok ((fun c => JStr (String c EmptyString)) <$> list_ascii_of_string s)
  | JObj d => Py.Ok ((fun kv => JStr (fst kv)) <$> d)
  | _ => Py.Raise Py.TypeError
  end.

(** [data.get('itemListElement', [])] *)
Definition item_list_element (data : dict) : json :=
  default (JArr []) (lookup_key "itemListElement" data).

(** [re.search(r'/title/(tt\d+)/', url)] when [url] is a string, and
    group 1 of the match; [None] otherwise. *)
Definition tconst_of (url : json) : option string :=
  match url with
  | JStr u => Re.search Re.match_tconst u
  | _ => None
  end.

(** [rank_by_tconst.get(tconst) if tconst else None] *)
Definition lookup_rank (rank_by_tconst : gmap string Z) (tconst : option string)
  : option Z :=
  match tconst with
  | Some t => if String.eqb t EmptyString then None else rank_by_tconst !! t
  | None => None
  end.

(** The dict built in the loop body for a valid [item] at position [i]. *)
Definition record_of (rank_by_tconst : gmap string Z) (i : Z) (item : dict)
  : MovieRecord :=
  let aggregate :=
    match get item "aggregateRating" with
    | JObj a => a
    | _ => []
    end in
  let url := get item "url" in
  let tconst := tconst_of url in
  let rank := lookup_rank rank_by_tconst tconst in
  {| rank := JInt (match rank with Some r => r | None => i end);
     url := url;
     name := get item "name";
     alternateName := get item "alternateName";
     description := get item "description";
     image := get item "image";
     ratingValue := get aggregate "ratingValue";
     ratingCount := get aggregate "ratingCount";
     contentRating := get item "contentRating";
     genre := get item "genre";
     duration := get item "duration" |}.

End Movie.

(** ** [control_panel.py] *)

Module ControlPanel.
Import Py Json Movie.

Definition DEFAULT_CHART_URL : string :=
  "https://www.imdb.com/es-es/chart/top/?ref_=hm_nv_menu".

Definition SORT_OPTIONS : gmap string string :=
  list_to_map
    [ ("RANKING", "Ranking (default)");
      ("USER_RATING", "IMDb rating");
      ("RELEASE_DATE", "Release date");
      ("USER_RATING_COUNT", "Rating count");
      ("TITLE_REGIONAL", "Title (regional)");
      ("POPULARITY", "Popularity");
      ("RUNTIME", "Runtime") ]%string.

Definition SORT_PARAM_VALUES : gmap string string :=
  list_to_map
    [ ("USER_RATING", "user_rating");
      ("RELEASE_DATE", "release_date");
      ("USER_RATING_COUNT", "user_rating_count");
      ("TITLE_REGIONAL", "title_regional");
      ("POPULARITY", "popularity");
      ("RUNTIME", "runtime") ]%string.

Record ChartFilters : Type := {
  limit : Z;
  sort : string;
  direction : string
}.

(** The [try] catches [TypeError] and [ValueError] only. *)
Definition _normalize_limit (value : option string) : result Z :=
  match int value with
  | Ok n => Ok (Z.max 1 (Z.min 250 n))
  | Raise TypeError => Ok 50
  | Raise ValueError => Ok 50
  | Raise e => Raise e
  end.

Definition _normalize_sort (value : string) : string :=
  if bool_decide (is_Some (SORT_OPTIONS !! value)) then value else "RANKING"%string.

Definition _normalize_direction (value : string) : string :=
  if String.eqb value "asc" || String.eqb value "desc" then value else "desc"%string.

(** [not sort_value] holds for [None] and for the empty string. *)
Definition build_chart_url (filters : ChartFilters) : string :=
  if String.eqb (sort filters) "RANKING" then DEFAULT_CHART_URL
  else
    match SORT_PARAM_VALUES !! sort filters with
    | None => DEFAULT_CHART_URL
    | Some sort_value =>
        if String.eqb sort_value EmptyString then DEFAULT_CHART_URL
        else DEFAULT_CHART_URL +:+ "&sort=" +:+ sort_value +:+ "%2C"
               +:+ direction filters
    end.

(** [request.form.get(key, default)] and [request.args.get(key, default)] *)
Definition form_get (form : gmap string string) (key dflt : string) : string :=
  default dflt (form !! key).

(** The filters the routes [/preview], [/download.json] and
    [/api/movies] build from the submitted fields. *)
Definition filters_of_form (form : gmap string string) : result ChartFilters :=
  bind (_normalize_limit (Some (form_get form "limit" "50"))) (fun l =>
  Ok {| limit := l;
        sort := _normalize_sort (form_get form "sort" "RANKING");
        direction := _normalize_direction (form_get form "direction" "desc") |}).

(** Lines 106-109: the loop over [re.findall] that fills
    [rank_by_tconst], a match adding its pair when the key is new;
    [int(rank)] is called for a new key only, and may raise. *)
Fixpoint rank_index_loop (matches : list (string * string))
    (rank_by_tconst : gmap string Z) : result (gmap string Z) :=
  match matches with
  | [] => Ok rank_by_tconst
  | (tconst, rank) :: rest =>
      match rank_by_tconst !! tconst with
      | None =>
          bind (int_of_digits rank) (fun r =>
          rank_index_loop rest (<[tconst := r]> rank_by_tconst))
      | Some _ => rank_index_loop rest rank_by_tconst
      end
  end.

Definition rank_index (html_text : string) : result (gmap string Z) :=
  rank_index_loop (Re.findall Re.match_anchor html_text) ∅.

(** Lines 111-115. *)
Definition ldjson_scripts (html_text : string) : list string :=
  Re.findall Re.match_script html_text.

(** Lines 132-161: the loop over [enumerate(..., start=1)]; [results]
    grows at its end. *)
Fixpoint merge_loop (rank_by_tconst : gmap string Z) (i : Z)
    (elements : list json) (results : list MovieRecord) : list MovieRecord :=
  match elements with
  | [] => results
  | element :: rest =>
      merge_loop rank_by_tconst (i + 1) rest
        (match element with
         | JObj e =>
             match get e "item" with
             | JObj item => results ++ [record_of rank_by_tconst i item]
             | _ => results
             end
         | _ => results
         end)
  end.

(** *** The network and the requests sent over it *)

Record Response : Type := {
  status_code : Z;
  text : string
}.

Record Request : Type := {
  req_url : string;
  req_headers : gmap string string;
  req_timeout : Z
}.

(** The outcome of a request, given the requests sent before it: a
    response, or [None] when no response arrives (no connection, a
    timeout). *)
Definition network : Type := list Request -> Request -> option Response.

(** A computation that sends requests: it extends the trace of the
    requests sent so far and returns a value or raises. *)
Definition io (A : Type) : Type := list Request -> result A * list Request.

Definition ret {A} (a : A) : io A := fun trace => (Ok a, trace).

Definition lift {A} (r : result A) : io A := fun trace => (r, trace).

Definition io_bind {A B} (c : io A) (k : A -> io B) : io B :=
  fun trace =>
    match c trace with
    | (Ok a, trace') => k a trace'
    | (Raise e, trace') => (Raise e, trace')
    end.

#[global] Instance io_mret : MRet io := @ret.
#[global] Instance io_mbind : MBind io := fun A B k c => io_bind c k.

Definition requests_get (net : network) (url : string)
    (headers : gmap string string) (timeout : Z) : io Response :=
  fun trace =>
    let rq := {| req_url := url; req_headers := headers; req_timeout := timeout |} in
    (match net trace rq with
     | Some resp => Ok resp
     | None => Raise ConnectionError
     end, trace ++ [rq]).

Definition raise_for_status (resp : Response) : result unit :=
  if (400 <=? status_code resp) && (status_code resp <? 600)
  then Raise (HTTPError (status_code resp))
  else Ok tt.

Definition browser_headers : gmap string string :=
  list_to_map
    [ ("User-Agent",
       "Mozilla/5.0 (Macintosh; Intel Mac OS X 10_15_7) AppleWebKit/537.36 (KHTML, like Gecko) Chrome/122.0.0.0 Safari/537.36");
      ("Accept", "text/html,application/xhtml+xml,application/xml;q=0.9,*/*;q=0.8");
      ("Accept-Language", "es-ES,es;q=0.9,en;q=0.8");
      ("Cache-Control", "no-cache");
      ("Pragma", "no-cache") ]%string.

Record Diagnostics : Type := {
  http_status : Z;
  html_length : Z;
  ldjson_blocks : Z
}.

Record FetchResult : Type := {
  url : string;
  filters : ChartFilters;
  diagnostics : Diagnostics;
  count : Z;
  movies : list MovieRecord
}.

(** What the routes [/] and [/preview] hand to the template: the table of
    sort options, the filters, and the result or the error. *)
Record PageContext : Type := {
  ctx_sort_options : gmap string string;
  ctx_filters : ChartFilters;
  ctx_result : option FetchResult;
  ctx_error : option exn
}.

Section WithDecoder.
Variable loads : string -> outcome.

(** Lines 117-127: [data] after the loop over the script blocks.  The
    [except] clause names [json.JSONDecodeError] only. *)
Fixpoint select_item_list (scripts : list string) : result (option dict) :=
  match scripts with
  | [] => Ok None
  | raw_json :: rest =>
      match loads (strip raw_json) with
      | DecodeError => select_item_list rest
      | Crash c => Raise (crash_exn c)
      | Decoded candidate =>
          if is_item_list candidate then
            match candidate with
            | JObj d => Ok (Some d)
            | _ => Ok None
            end
          else select_item_list rest
      end
  end.

(** Lines 99-163.  [not data]: no block was selected, or the selected
    dict is empty. *)
Definition parse_top250_from_html (html_text : string)
  : result (list MovieRecord) :=
  bind (rank_index html_text) (fun rank_by_tconst =>
  let scripts := ldjson_scripts html_text in
  bind (select_item_list scripts) (fun data =>
  match data with
  | None => Ok []
  | Some [] => Ok []
  | Some data =>
      bind (iterate (item_list_element data)) (fun elements =>
      Ok (merge_loop rank_by_tconst 1 elements []))
  end)).

(** Lines 166-206.  [requests.get] raises when no response arrives;
    [raise_for_status] is the function of the [requests] library,
    which raises for the statuses 400 to 599. *)
Definition fetch_chart (net : network) (filters : ChartFilters)
  : io FetchResult :=
  let url := build_chart_url filters in
  let headers := browser_headers in
  resp ← requests_get net url headers 30;
  resp ← (if (status_code resp =? 202)
             || String.eqb (text resp) EmptyString
             || (len (text resp) <? 10000)
          then
            let headers := <["Accept-Language" := "en-US,en;q=0.9"%string]> headers in
            requests_get net url headers 30
          else ret resp);
  _ ← lift (raise_for_status resp);
  movies ← lift (parse_top250_from_html (text resp));
  let diagnostics :=
    {| http_status := status_code resp;
       html_length :=
         if String.eqb (text resp) EmptyString then 0 else len (text resp);
       ldjson_blocks := Z.of_nat (length (ldjson_scripts (text resp))) |} in
  ret {| url := url;
         filters := filters;
         diagnostics := diagnostics;
         count := Z.min (limit filters) (Z.of_nat (length movies));
         movies := slice_to movies (limit filters) |}.

(** Lines 212-217, 235-240: [try: result = fetch_chart(filters)] with
    [except Exception]: the result, or the exception whose text becomes
    [error]. *)
Definition try_fetch_chart (net : network) (filters : ChartFilters)
  : io (option FetchResult * option exn) :=
  fun trace =>
    match fetch_chart net filters trace with
    | (Ok result, trace') => (Ok (Some result, None), trace')
    | (Raise e, trace') => (Ok (None, Some e), trace')
    end.

(** Lines 209-224: the arguments the route [/] gives to
    [render_template]. *)
Definition index (net : network) : io PageContext :=
  let filters := {| limit := 50; sort := "RANKING"; direction := "desc" |} in
  outcome ← try_fetch_chart net filters;
  ret {| ctx_sort_options := SORT_OPTIONS;
         ctx_filters := filters;
         ctx_result := outcome.1;
         ctx_error := outcome.2 |}.

(** Lines 227-248: the arguments the route [/preview] gives to
    [render_template]; the filters are built before the [try]. *)
Definition preview (net : network) (form : gmap string string) : io PageContext :=
  filters ← lift (filters_of_form form);
  outcome ← try_fetch_chart net filters;
  ret {| ctx_sort_options := SORT_OPTIONS;
         ctx_filters := filters;
         ctx_result := outcome.1;
         ctx_error := outcome.2 |}.

(** Lines 251-259: [result["movies"]], the value the route
    [/download.json] serialises into its response. *)
Definition download_json (net : network) (args : gmap string string)
  : io (list MovieRecord) :=
  filters ← lift (filters_of_form args);
  result ← fetch_chart net filters;
  ret (movies result).

(** Lines 271-279: [result], the value the route [/api/movies]
    serialises into its response. *)
Definition api_movies (net : network) (args : gmap string string)
  : io FetchResult :=
  filters ← lift (filters_of_form args);
  fetch_chart net filters.
End WithDecoder.

End ControlPanel.

(** ** [spiders/imdb.py] *)

Module Spider.
Import Py Json Movie.

(** What the two CSS selections of [parse] return on a response, in
    document order: the [href] of every [a.ipc-title-link-wrapper] and
    the text of every [script[type="application/ld+json"]]. *)
Record Response : Type := {
  hrefs : list string;
  ld_json_texts : list string
}.

(** Lines 35-40: every matching [href] assigns its pair; [int] is called
    for each of them, and may raise. *)
Fixpoint rank_index_loop (hrefs : list string)
    (rank_by_tconst : gmap string Z) : result (gmap string Z) :=
  match hrefs with
  | [] => Ok rank_by_tconst
  | href :: rest =>
      match Re.search Re.match_anchor href with
      | None => rank_index_loop rest rank_by_tconst
      | Some (tconst, rank) =>
          bind (int_of_digits rank) (fun r =>
          rank_index_loop rest (<[tconst := r]> rank_by_tconst))
      end
  end.

Definition rank_index (response : Response) : result (gmap string Z) :=
  rank_index_loop (hrefs response) ∅.

(** Lines 58-83: one dict is yielded per valid element. *)
Fixpoint yield_loop (rank_by_tconst : gmap string Z) (i : Z)
    (elements : list json) : list MovieRecord :=
  match elements with
  | [] => []
  | element :: rest =>
      let item :=
        match element with
        | JObj e => get e "item"
        | _ => JNull
        end in
      match item with
      | JObj it => record_of rank_by_tconst i it :: yield_loop rank_by_tconst (i + 1) rest
      | _ => yield_loop rank_by_tconst (i + 1) rest
      end
  end.

Section WithDecoder.
Variable loads : string -> outcome.

(** Lines 44-53: [data] after the loop over the script texts.  The
    [except] clause names [json.JSONDecodeError] only. *)
Fixpoint select_item_list (texts : list string) : result (option dict) :=
  match texts with
  | [] => Ok None
  | txt :: rest =>
      match loads txt with
      | DecodeError => select_item_list rest
      | Crash c => Raise (crash_exn c)
      | Decoded candidate =>
          if is_item_list candidate then
            match candidate with
            | JObj d => Ok (Some d)
            | _ => Ok None
            end
          else select_item_list rest
      end
  end.

(** The items the generator [parse] yields, or the exception that ends
    it before the first of them. *)
Definition parse (response : Response) : result (list MovieRecord) :=
  bind (rank_index response) (fun rank_by_tconst =>
  bind (select_item_list (ld_json_texts response)) (fun data =>
  match data with
  | None => Ok []
  | Some [] => Ok []
  | Some data =>
      bind (iterate (item_list_element data)) (fun elements =>
      Ok (yield_loop rank_by_tconst 1 elements))
  end)).
End WithDecoder.

End Spider.

(** ** The wording of the specification

    Definitions that follow the specification's sentences, for the
    properties that compare the code with them. *)

Module Spec.
Import Py Json Movie.

(** "clamped into [1,250]" *)
Definition clamp (n : Z) : Z :=
  if n <? 1 then 1 else if 250 <? n then 250 else n.

(** "possibly incomplete: status 202, or the body is empty, or the body
    length is below 10,000 characters" *)
Definition incomplete (r : ControlPanel.Response) : Prop :=
  ControlPanel.status_code r = 202
  \/ ControlPanel.text r = EmptyString
  \/ len (ControlPanel.text r) < 10000.

#[global] Instance incomplete_dec (r : ControlPanel.Response) :
  Decision (incomplete r).
Proof. unfold incomplete. apply _. Defined.

(** The first request of an invocation and the request of its retry. *)
Definition first_request (f : ControlPanel.ChartFilters) : ControlPanel.Request :=
  {| ControlPanel.req_url := ControlPanel.build_chart_url f;
     ControlPanel.req_headers := ControlPanel.browser_headers;
     ControlPanel.req_timeout := 30 |}.

Definition retry_request (f : ControlPanel.ChartFilters) : ControlPanel.Request :=
  {| ControlPanel.req_url := ControlPanel.build_chart_url f;
     ControlPanel.req_headers :=
       <["Accept-Language" := "en-US,en;q=0.9"%string]> ControlPanel.browser_headers;
     ControlPanel.req_timeout := 30 |}.

(** "in any of these cases, retry exactly once": the requests of an
    invocation that starts after the requests of [trace]. *)
Definition requests_sent (net : ControlPanel.network)
    (trace : list ControlPanel.Request) (f : ControlPanel.ChartFilters)
  : list ControlPanel.Request :=
  match net trace (first_request f) with
  | Some r1 =>
      if bool_decide (incomplete r1)
      then [first_request f; retry_request f]
      else [first_request f]
  | None => [first_request f]
  end.

(** "the (possibly retried) response", if one arrived. *)
Definition final_response (net : ControlPanel.network)
    (trace : list ControlPanel.Request) (f : ControlPanel.ChartFilters)
  : option ControlPanel.Response :=
  match net trace (first_request f) with
  | Some r1 =>
      if bool_decide (incomplete r1)
      then net (trace ++ [first_request f]) (retry_request f)
      else Some r1
  | None => None
  end.

(** "diagnostics (status code, markup length, count of structured-data
    blocks found)" *)
Definition diagnostics_of (resp : ControlPanel.Response) : ControlPanel.Diagnostics :=
  {| ControlPanel.http_status := ControlPanel.status_code resp;
     ControlPanel.html_length := len (ControlPanel.text resp);
     ControlPanel.ldjson_blocks :=
       Z.of_nat (length (ControlPanel.ldjson_scripts (ControlPanel.text resp))) |}.

(** "an object with type marker ItemList that contains a list-elements
    field", for a block decoded by [decode]. *)
Definition qualifies (decode : string -> outcome) (block : string) : bool :=
  match decode block with
  | Decoded v => is_item_list v
  | _ => false
  end.

(** A block the scan goes past: it fails to parse ("parse failures are
    silently skipped") or parses to something that does not qualify. *)
Definition passed_over (decode : string -> outcome) (block : string) : Prop :=
  match decode block with
  | Decoded v => is_item_list v = false
  | DecodeError => True
  | Crash _ => False
  end.

(** "parse failures are silently skipped; select the first parsed block
    that is an object whose type marker equals ItemList and that
    contains a list-elements field; stop scanning at the first match;
    if no block qualifies, nothing is selected" -- and what the
    [except json.JSONDecodeError] clause leaves: another exception of the
    decoder on a block reached by the scan ends the scan. *)
Definition selects_first_item_list (decode : string -> outcome)
    (select : list string -> result (option dict)) : Prop :=
  (forall block rest,
      decode block = DecodeError -> select (block :: rest) = select rest)
  /\ (forall before block after v,
        Forall (passed_over decode) before ->
        decode block = Decoded v ->
        is_item_list v = true ->
        exists d, v = JObj d /\ select (before ++ block :: after) = Ok (Some d))
  /\ (forall blocks,
        Forall (passed_over decode) blocks -> select blocks = Ok None)
  /\ (forall before block after c,
        Forall (passed_over decode) before ->
        decode block = Crash c ->
        select (before ++ block :: after) = Raise (crash_exn c)).

(** A text made of digits only. *)
Fixpoint all_digits (s : string) : bool :=
  match s with
  | EmptyString => true
  | String c s' => is_digit c && all_digits s'
  end.

(** The rank of a record as a number. *)
Definition rank_value (r : MovieRecord) : Z :=
  match rank r with
  | JInt z => z
  | _ => 0
  end.

(** [(t, ds)] is, among the anchors of a page in document order, the
    first one of the identifier [t]. *)
Definition first_anchor (anchors : list (string * string)) (t ds : string) : Prop :=
  exists before after, anchors = before ++ (t, ds) :: after /\ t ∉ before.*1.

(** No first anchor of an identifier carries more digits than [int]
    accepts. *)
Definition anchors_readable (anchors : list (string * string)) : Prop :=
  forall t ds, first_anchor anchors t ds -> (String.length ds <= max_str_digits)%nat.

(** "the identifier pattern" at the head of a text: [/title/], the
    identifier [t] ([tt] and one digit or more), a slash. *)
Definition starts_with_identifier (s t : string) : Prop :=
  exists ids rest,
    ids <> EmptyString /\ all_digits ids = true /\ t = "tt" +:+ ids
    /\ s = "/title/tt" +:+ ids +:+ "/" +:+ rest.

(** "derive an identifier by matching the identifier pattern against the
    url": [t] is the identifier at the leftmost place of [u] that has
    one. *)
Definition identifier_of (u t : string) : Prop :=
  exists before s,
    u = before +:+ s /\ starts_with_identifier s t
    /\ forall before' s' t',
        u = before' +:+ s' -> starts_with_identifier s' t' ->
        (String.length before <= String.length before')%nat.

(** "absence of a match yields no identifier" *)
Definition no_identifier (u : string) : Prop :=
  forall before s t, u = before +:+ s -> ~ starts_with_identifier s t.

(** "resolve rank by identifier lookup in RankIndex, falling back to i
    when the identifier is absent or unmapped" *)
Inductive resolves (index : gmap string Z) (i : Z) (url : json) : Z -> Prop :=
| resolves_mapped (u t : string) (r : Z) :
    url = JStr u -> identifier_of u t -> index !! t = Some r ->
    resolves index i url r
| resolves_unmapped (u t : string) :
    url = JStr u -> identifier_of u t -> index !! t = None ->
    resolves index i url i
| resolves_absent :
    (forall u, url = JStr u -> no_identifier u) ->
    resolves index i url i.

(** "skip any element that is not an object, or whose item field is not
    an object" *)
Definition valid_item (element : json) : option dict :=
  match element with
  | JObj e =>
      match get e "item" with
      | JObj item => Some item
      | _ => None
      end
  | _ => None
  end.

(** "extract its aggregate-rating sub-object (default empty)" *)
Definition aggregate_of (item : dict) : dict :=
  match get item "aggregateRating" with
  | JObj a => a
  | _ => []
  end.

(** The elements with their positions, counted from [start]. *)
Fixpoint enumerate (start : Z) (elements : list json) : list (Z * json) :=
  match elements with
  | [] => []
  | e :: rest => (start, e) :: enumerate (start + 1) rest
  end.

(** The valid items of a list with their 1-based positions, in list
    order. *)
Definition valid_items (elements : list json) : list (Z * dict) :=
  omap (fun p => item ← valid_item (snd p); Some (fst p, item))
       (enumerate 1 elements).

(** The MovieRecord of the valid item [p.2] at the position [p.1]. *)
Definition emits (index : gmap string Z) (p : Z * dict) (r : MovieRecord) : Prop :=
  (exists z, rank r = JInt z /\ resolves index (fst p) (get (snd p) "url") z)
  /\ url r = get (snd p) "url"
  /\ name r = get (snd p) "name"
  /\ alternateName r = get (snd p) "alternateName"
  /\ description r = get (snd p) "description"
  /\ image r = get (snd p) "image"
  /\ ratingValue r = get (aggregate_of (snd p)) "ratingValue"
  /\ ratingCount r = get (aggregate_of (snd p)) "ratingCount"
  /\ contentRating r = get (snd p) "contentRating"
  /\ genre r = get (snd p) "genre"
  /\ duration r = get (snd p) "duration".

End Spec.

(** ** The loops in closed form

    What the merger's loop computes, written with the code's own
    [tconst_of]; the properties go through these forms. *)

Module Closed.
Import Py Json Movie.

Definition resolve_rank (index : gmap string Z) (i : Z) (item : dict) : Z :=
  match tconst_of (get item "url") with
  | Some tconst =>
      match index !! tconst with
      | Some r => r
      | None => i
      end
  | None => i
  end.

Definition record (index : gmap string Z) (i : Z) (item : dict) : MovieRecord :=
  {| rank := JInt (resolve_rank index i item);
     url := get item "url";
     name := get item "name";
     alternateName := get item "alternateName";
     description := get item "description";
     image := get item "image";
     ratingValue := get (Spec.aggregate_of item) "ratingValue";
     ratingCount := get (Spec.aggregate_of item) "ratingCount";
     contentRating := get item "contentRating";
     genre := get item "genre";
     duration := get item "duration" |}.

Definition merger_from (index : gmap string Z) (start : Z) (elements : list json)
  : list MovieRecord :=
  omap (fun p => item ← Spec.valid_item (snd p); Some (record index (fst p) item))
       (Spec.enumerate start elements).

Definition merger (index : gmap string Z) (elements : list json)
  : list MovieRecord :=
  merger_from index 1 elements.

End Closed.

(** ** Sample pages, selections and networks *)

Module Samples.
Import Py Json Movie.

Definition default_filters : ControlPanel.ChartFilters :=
  {| ControlPanel.limit := 50;
     ControlPanel.sort := "RANKING";
     ControlPanel.direction := "desc" |}.

(** Two title links for the same film, the chart position first. *)
Definition twice_linked_hrefs : list string :=
  [ "/title/tt0111161/?ref_=chttp_t_1"; "/title/tt0111161/?ref_=chttp_t_7" ]%string.

Definition one_film_block : string :=
  dq "{'@type':'ItemList','itemListElement':[{'item':{'url':'https://www.imdb.com/title/tt0111161/','name':'The Shawshank Redemption'}}]}".

Definition twice_linked_page : string :=
  dq ("<a class='ipc-title-link-wrapper' href='/title/tt0111161/?ref_=chttp_t_1'>1.</a>"
      +:+ "<a class='ipc-title-link-wrapper' href='/title/tt0111161/?ref_=chttp_t_7'>more</a>"
      +:+ "<script type='application/ld+json'>") +:+ one_film_block +:+ "</script>".

Definition twice_linked_response : Spider.Response :=
  {| Spider.hrefs := twice_linked_hrefs;
     Spider.ld_json_texts := [one_film_block] |}.

(** A network that answers the n-th request with the n-th response of a
    list, and with nothing once the list is used up. *)
Definition serve (responses : list ControlPanel.Response) : ControlPanel.network :=
  fun trace _ => responses !! length trace.

(** What [json.loads] gives on [one_film_block]. *)
Definition one_film_elements : list json :=
  [ JObj [ ("item"%string,
            JObj [ ("url"%string, JStr "https://www.imdb.com/title/tt0111161/");
                   ("name"%string, JStr "The Shawshank Redemption") ]) ] ].

Definition one_film_data : dict :=
  [ ("@type"%string, JStr "ItemList");
    ("itemListElement"%string, JArr one_film_elements) ].

(** The record of that film with the rank [z]. *)
Definition one_film_record (z : Z) : MovieRecord :=
  {| rank := JInt z;
     url := JStr "https://www.imdb.com/title/tt0111161/";
     name := JStr "The Shawshank Redemption";
     alternateName := JNull;
     description := JNull;
     image := JNull;
     ratingValue := JNull;
     ratingCount := JNull;
     contentRating := JNull;
     genre := JNull;
     duration := JNull |}.

(** A page whose only title link carries the number 0. *)
Definition rank_zero_page : string :=
  dq ("<a class='ipc-title-link-wrapper' href='/title/tt0111161/?ref_=chttp_t_0'>0.</a>"
      +:+ "<script type='application/ld+json'>") +:+ one_film_block +:+ "</script>".

Definition film_list_block : string :=
  dq "{'@type':'ItemList','itemListElement':[{'item':{'url':'/title/tt0068646/','name':'The Godfather'}}]}".

(** Four script blocks: a truncated one, a decodable one of another
    type, and two item lists. *)
Definition mixed_blocks : list string :=
  [ dq "{'@type':'ItemList','itemListElement':[";
    dq "{'@type':'Organization','name':'IMDb'}" ]
  ++ one_film_block :: [ film_list_block ].

(** Three films listed in the order B, C, A of a sort chosen by the
    user; the title links give their chart positions 3, 1 and 2. *)
Definition three_film_page : string :=
  dq ("<a class='ipc-title-link-wrapper' href='/title/tt0000002/?ref_=chttp_t_3'>B</a>"
      +:+ "<a class='ipc-title-link-wrapper' href='/title/tt0000003/?ref_=chttp_t_1'>C</a>"
      +:+ "<a class='ipc-title-link-wrapper' href='/title/tt0000001/?ref_=chttp_t_2'>A</a>"
      +:+ "<script type='application/ld+json'>"
      +:+ "{'@type':'ItemList','itemListElement':["
      +:+ "{'item':{'url':'/title/tt0000002/','name':'B'}},"
      +:+ "{'item':{'url':'/title/tt0000003/','name':'C'}},"
      +:+ "{'item':{'url':'/title/tt0000001/','name':'A'}}]}"
      +:+ "</script>").

(** A page without any structured-data block. *)
Definition bare_page : string := "<html><body>IMDb Top 250</body></html>".

(** A page whose item list has [null] for its elements. *)
Definition null_list_page : string :=
  dq "<script type='application/ld+json'>{'@type':'ItemList','itemListElement':null}</script>".

Definition ok_response (body : string) : ControlPanel.Response :=
  {| ControlPanel.status_code := 200; ControlPanel.text := body |}.

(** The interstitial answer: accepted, a 500-character body to follow. *)
Fixpoint filler (n : nat) : string :=
  match n with
  | O => EmptyString
  | S k => String "." (filler k)
  end.

Definition placeholder : ControlPanel.Response :=
  {| ControlPanel.status_code := 202; ControlPanel.text := filler 500 |}.

Definition not_modified : ControlPanel.Response :=
  {| ControlPanel.status_code := 304; ControlPanel.text := EmptyString |}.

Definition limit_two : ControlPanel.ChartFilters :=
  {| ControlPanel.limit := 2;
     ControlPanel.sort := "RANKING";
     ControlPanel.direction := "desc" |}.

(** What the spider's two selections give on [three_film_page]. *)
Definition three_film_response : Spider.Response :=
  {| Spider.hrefs :=
       [ "/title/tt0000002/?ref_=chttp_t_3";
         "/title/tt0000003/?ref_=chttp_t_1";
         "/title/tt0000001/?ref_=chttp_t_2" ]%string;
     Spider.ld_json_texts :=
       [ dq ("{'@type':'ItemList','itemListElement':["
             +:+ "{'item':{'url':'/title/tt0000002/','name':'B'}},"
             +:+ "{'item':{'url':'/title/tt0000003/','name':'C'}},"
             +:+ "{'item':{'url':'/title/tt0000001/','name':'A'}}]}") ] |}.

(** The same three films on a page without title links. *)
Definition unlinked_page : string :=
  dq ("<script type='application/ld+json'>"
      +:+ "{'@type':'ItemList','itemListElement':["
      +:+ "{'item':{'url':'/title/tt0000002/','name':'B'}},"
      +:+ "'separator',"
      +:+ "{'item':{'url':'/title/tt0000003/','name':'C'}},"
      +:+ "{'item':{'url':'/title/tt0000001/','name':'A'}}]}"
      +:+ "</script>").

Definition rating_asc (l : Z) : ControlPanel.ChartFilters :=
  {| ControlPanel.limit := l;
     ControlPanel.sort := "USER_RATING";
     ControlPanel.direction := "asc" |}.

(** What [json.loads] gives on the elements of [unlinked_page]. *)
Definition unlinked_elements : list json :=
  [ JObj [ ("item"%string,
            JObj [ ("url"%string, JStr "/title/tt0000002/"); ("name"%string, JStr "B") ]) ];
    JStr "separator";
    JObj [ ("item"%string,
            JObj [ ("url"%string, JStr "/title/tt0000003/"); ("name"%string, JStr "C") ]) ];
    JObj [ ("item"%string,
            JObj [ ("url"%string, JStr "/title/tt0000001/"); ("name"%string, JStr "A") ]) ] ].

(** A number of [n] digits. *)
Fixpoint nines (n : nat) : string :=
  match n with
  | O => EmptyString
  | S k => String "9" (nines k)
  end.

(** A page whose title link carries a number of 4301 digits, one more than
    [int] accepts, and whose only script block is no item list. *)
Definition long_anchor_page : string :=
  dq "<a class='ipc-title-link-wrapper' href='/title/tt0111161/?ref_=chttp_t_"
  +:+ nines 4301
  +:+ dq "'>1.</a><script type='application/ld+json'>{'@type':'Organization','name':'IMDb'}</script>".

(** An item list after a form feed: [str.strip] removes the form feed,
    [json.loads] does not accept it. *)
Definition form_feed_block : string := String "012" one_film_block.

(** A block that is no item list and holds an integer of 4301 digits. *)
Definition long_integer_block : string :=
  dq "{'@type':'WebPage','position':" +:+ nines 4301 +:+ "}".

(** A page with a truncated block and a block of another type. *)
Definition other_type_page : string :=
  dq ("<script type='application/ld+json'>{'@type':'ItemList','itemListElement':[</script>"
      +:+ "<script type='application/ld+json'>{'@type':'Organization','name':'IMDb'}</script>").

End Samples.


Import Py Re Json Movie.

(** * Properties *)

(** ** Filter normalisation and URL construction *)

Lemma int_raises (value : option string) (e : exn) :
  int value = Raise e -> e = TypeError \/ e = ValueError.
Proof.
  destruct value as [s|]; simpl; [|intros [= <-]; auto].
  match goal with
  | |- match ?x with _ => _ end = _ -> _ => destruct x as [[n count]|]
  end; [|intros [= <-]; auto].
  destruct (max_str_digits <? count)%nat; intros [= <-]; auto.
Qed.

Lemma normalize_limit_value (value : option string) :
  ControlPanel._normalize_limit value =
    match int value with
    | Ok k => Ok (Z.max 1 (Z.min 250 k))
    | Raise _ => Ok 50
    end.
Proof.
  unfold ControlPanel._normalize_limit.
  destruct (int value) as [k|e] eqn:E; [reflexivity|].
  destruct (int_raises _ _ E) as [-> | ->]; reflexivity.
Qed.

Lemma max_min_clamp (k : Z) : Z.max 1 (Z.min 250 k) = Spec.clamp k.
Proof.
  unfold Spec.clamp.
  destruct (Z.ltb_spec k 1); [lia|].
  destruct (Z.ltb_spec 250 k); lia.
Qed.

(** C8. For every raw limit input (a string, or Python's [None]) the
    normaliser returns, without raising, an integer between 1 and 250:
    the parsed integer clamped into that range when [int] accepts the
    input, and 50 when [int] refuses it; a form without a [limit] field
    gets the limit 50. *)
Theorem normalize_limit_total_clamped (value : option string) :
  (exists n : Z,
      ControlPanel._normalize_limit value = Ok n
      /\ 1 <= n <= 250
      /\ match int value with
         | Ok k => n = Spec.clamp k
         | Raise _ => n = 50
         end)
  /\ (forall form : gmap string string,
        exists f, ControlPanel.filters_of_form (delete "limit"%string form) = Ok f
                  /\ ControlPanel.limit f = 50).
Proof.
  split.
  - rewrite normalize_limit_value.
    destruct (int value) as [k|e].
    + exists (Z.max 1 (Z.min 250 k)). split; [reflexivity|].
      split; [lia | apply max_min_clamp].
    + exists 50. repeat split; lia.
  - intros form. unfold ControlPanel.filters_of_form, ControlPanel.form_get.
    rewrite lookup_delete_eq. simpl.
    eexists. split; reflexivity.
Qed.

Lemma sort_param_nonempty (key param : string) :
  ControlPanel.SORT_PARAM_VALUES !! key = Some param ->
  key <> "RANKING"%string /\ param <> EmptyString.
Proof.
  intros H. apply elem_of_list_to_map_2 in H.
  repeat (apply elem_of_cons in H; destruct H as [H|H];
          [inversion H; subst; split; discriminate|]).
  apply elem_of_nil in H. destruct H.
Qed.

(** A normalised sort key is RANKING or has a parameter name, so the
    fallback of [build_chart_url] for a key without one is never taken
    on normalised filters. *)
Lemma normalized_sort_is_mapped (value : string) :
  ControlPanel._normalize_sort value = "RANKING"%string
  \/ is_Some (ControlPanel.SORT_PARAM_VALUES !! ControlPanel._normalize_sort value).
Proof.
  unfold ControlPanel._normalize_sort.
  destruct (bool_decide (is_Some (ControlPanel.SORT_OPTIONS !! value))) eqn:E;
    [|by left].
  apply bool_decide_eq_true in E. destruct E as [label H].
  apply elem_of_list_to_map_2 in H.
  apply elem_of_cons in H. destruct H as [H|H]; [inversion H; by left|].
  right.
  repeat (apply elem_of_cons in H; destruct H as [H|H];
          [inversion H; subst; vm_compute; eauto|]).
  apply elem_of_nil in H. destruct H.
Qed.

(** C9. [build_chart_url] returns the fixed default chart URL when the
    sort key is RANKING, whatever the direction; the default URL followed
    by [&sort=<param>%2C<direction>] when the sort key has a mapped
    parameter name; and the default URL when the key has none. *)
Theorem build_chart_url_cases (filters : ControlPanel.ChartFilters) :
  (ControlPanel.sort filters = "RANKING"%string ->
   ControlPanel.build_chart_url filters = ControlPanel.DEFAULT_CHART_URL)
  /\ (forall param : string,
        ControlPanel.SORT_PARAM_VALUES !! ControlPanel.sort filters = Some param ->
        ControlPanel.build_chart_url filters =
          ControlPanel.DEFAULT_CHART_URL +:+ "&sort=" +:+ param +:+ "%2C"
            +:+ ControlPanel.direction filters)
  /\ (ControlPanel.SORT_PARAM_VALUES !! ControlPanel.sort filters = None ->
      ControlPanel.build_chart_url filters = ControlPanel.DEFAULT_CHART_URL).
Proof.
  unfold ControlPanel.build_chart_url. repeat split.
  - intros ->. reflexivity.
  - intros param H. destruct (sort_param_nonempty _ _ H) as [Hk Hp].
    rewrite H.
    destruct (String.eqb_spec (ControlPanel.sort filters) "RANKING"); [contradiction|].
    destruct (String.eqb_spec param EmptyString); [contradiction|].
    reflexivity.
  - intros ->.
    destruct (String.eqb (ControlPanel.sort filters) "RANKING"); reflexivity.
Qed.

(** The three cases at concrete filters: RANKING with either direction, a
    mapped key, and a key outside the table. *)
Lemma build_chart_url_cases_witness :
  ControlPanel.build_chart_url
    {| ControlPanel.limit := 50; ControlPanel.sort := "RANKING";
       ControlPanel.direction := "asc" |}
  = ControlPanel.DEFAULT_CHART_URL
  /\ ControlPanel.build_chart_url
       {| ControlPanel.limit := 50; ControlPanel.sort := "USER_RATING";
          ControlPanel.direction := "desc" |}
     = "https://www.imdb.com/es-es/chart/top/?ref_=hm_nv_menu&sort=user_rating%2Cdesc"%string
  /\ ControlPanel.build_chart_url
       {| ControlPanel.limit := 50; ControlPanel.sort := "YEAR";
          ControlPanel.direction := "desc" |}
     = ControlPanel.DEFAULT_CHART_URL.
Proof.
  split; [|split].
  - apply (build_chart_url_cases
             {| ControlPanel.limit := 50; ControlPanel.sort := "RANKING";
                ControlPanel.direction := "asc" |}).
    reflexivity.
  - apply (proj1 (proj2 (build_chart_url_cases
             {| ControlPanel.limit := 50; ControlPanel.sort := "USER_RATING";
                ControlPanel.direction := "desc" |})) "user_rating"%string).
    vm_compute. reflexivity.
  - apply (proj2 (proj2 (build_chart_url_cases
             {| ControlPanel.limit := 50; ControlPanel.sort := "YEAR";
                ControlPanel.direction := "desc" |}))).
    vm_compute. reflexivity.
Defined.

(** ** The rank index *)

Lemma first_anchor_nil (t ds : string) : ~ Spec.first_anchor [] t ds.
Proof. intros (before & after & H & _). destruct before; discriminate. Qed.

Lemma first_anchor_cons (t' ds' : string) (rest : list (string * string))
    (t ds : string) :
  Spec.first_anchor ((t', ds') :: rest) t ds
  <-> (t = t' /\ ds = ds') \/ (t <> t' /\ Spec.first_anchor rest t ds).
Proof.
  unfold Spec.first_anchor. split.
  - intros (before & after & Heq & Hnot). destruct before as [|p before].
    + injection Heq as -> -> _. auto.
    + injection Heq as <- ->. apply not_elem_of_cons in Hnot as [Hne Hnot].
      right. split; [exact Hne|]. eauto.
  - intros [[-> ->] | [Hne (before & after & -> & Hnot)]].
    + exists [], rest. split; [reflexivity | apply not_elem_of_nil].
    + exists ((t', ds') :: before), after. split; [reflexivity|].
      apply not_elem_of_cons. split; assumption.
Qed.

Lemma first_anchor_unique (anchors : list (string * string)) (t ds ds' : string) :
  Spec.first_anchor anchors t ds -> Spec.first_anchor anchors t ds' -> ds = ds'.
Proof.
  induction anchors as [|[t0 ds0] rest IH]; intros H H'.
  - by apply first_anchor_nil in H.
  - apply first_anchor_cons in H, H'.
    destruct H as [[E ->] | [Hne H]], H' as [[E' ->] | [Hne' H']];
      try reflexivity; try contradiction. by apply IH.
Qed.

Lemma first_anchor_elem (anchors : list (string * string)) (t ds : string) :
  Spec.first_anchor anchors t ds -> (t, ds) ∈ anchors.
Proof.
  intros (before & after & -> & _). apply elem_of_app. right. apply elem_of_cons. auto.
Qed.

Lemma first_anchor_exists (anchors : list (string * string)) (t : string) :
  t ∈ anchors.*1 -> exists ds, Spec.first_anchor anchors t ds.
Proof.
  induction anchors as [|[t0 ds0] rest IH]; intros H.
  - by apply elem_of_nil in H.
  - destruct (decide (t = t0)) as [->|Hne].
    + exists ds0. apply first_anchor_cons. auto.
    + apply elem_of_cons in H as [H|H]; [contradiction|].
      destruct (IH H) as [ds Hds]. exists ds. apply first_anchor_cons. auto.
Qed.

Lemma int_of_digits_cases (ds : string) :
  (int_of_digits ds = Raise ValueError /\ (max_str_digits < String.length ds)%nat)
  \/ (int_of_digits ds = Ok (digits_value ds)
      /\ (String.length ds <= max_str_digits)%nat).
Proof.
  unfold int_of_digits.
  destruct (Nat.ltb_spec max_str_digits (String.length ds)); [left | right]; auto.
Qed.

(** The entries of the index the Flask loop returns: those it started
    from, and for every other identifier the number of its first anchor. *)
Lemma rank_index_loop_entries (matches : list (string * string)) :
  forall (m index : gmap string Z),
    ControlPanel.rank_index_loop matches m = Ok index ->
    forall (t : string) (r : Z),
      index !! t = Some r
      <-> m !! t = Some r
          \/ (m !! t = None
              /\ exists ds, Spec.first_anchor matches t ds /\ r = digits_value ds).
Proof.
  induction matches as [|[t' ds'] rest IH]; intros m index H t r.
  - injection H as <-. split; [auto|].
    intros [H | (_ & ds & H & _)]; [exact H | by apply first_anchor_nil in H].
  - cbn [ControlPanel.rank_index_loop] in H.
    destruct (m !! t') as [r'|] eqn:E.
    + rewrite (IH _ _ H t r). split.
      * intros [Hm | (Hm & ds & Hf & ->)]; [auto|]. right. split; [exact Hm|].
        exists ds. split; [|reflexivity]. apply first_anchor_cons. right.
        split; [congruence | exact Hf].
      * intros [Hm | (Hm & ds & Hf & ->)]; [auto|]. right. split; [exact Hm|].
        exists ds. split; [|reflexivity].
        apply first_anchor_cons in Hf as [[-> _] | [_ Hf]]; [congruence | exact Hf].
    + destruct (int_of_digits_cases ds') as [[Ei _] | [Ei _]]; rewrite Ei in H;
        [discriminate|]. cbn [bind] in H.
      rewrite (IH _ _ H t r). destruct (decide (t = t')) as [->|Hne].
      * rewrite lookup_insert_eq. split.
        -- intros [[= <-] | [Hm _]]; [|discriminate]. right. split; [exact E|].
           exists ds'. split; [|reflexivity]. apply first_anchor_cons. auto.
        -- intros [Hm | (_ & ds & Hf & ->)]; [congruence|]. left.
           apply first_anchor_cons in Hf as [[_ ->] | [Hne _]];
             [reflexivity | contradiction].
      * rewrite lookup_insert_ne by congruence. split.
        -- intros [Hm | (Hm & ds & Hf & ->)]; [auto|]. right. split; [exact Hm|].
           exists ds. split; [|reflexivity]. apply first_anchor_cons. auto.
        -- intros [Hm | (Hm & ds & Hf & ->)]; [auto|]. right. split; [exact Hm|].
           exists ds. split; [|reflexivity].
           apply first_anchor_cons in Hf as [[-> _] | [_ Hf]];
             [contradiction | exact Hf].
Qed.

(** The Flask loop raises exactly when the first anchor of an identifier
    that has no entry yet carries more digits than [int] accepts. *)
Lemma rank_index_loop_raises (matches : list (string * string)) :
  forall (m : gmap string Z) (e : exn),
    ControlPanel.rank_index_loop matches m = Raise e
    <-> e = ValueError
        /\ exists t ds, Spec.first_anchor matches t ds /\ m !! t = None
                        /\ (max_str_digits < String.length ds)%nat.
Proof.
  induction matches as [|[t' ds'] rest IH]; intros m e.
  - split; [discriminate|].
    intros (_ & t & ds & H & _). by apply first_anchor_nil in H.
  - cbn [ControlPanel.rank_index_loop].
    destruct (m !! t') as [r'|] eqn:E.
    + rewrite IH. split.
      * intros (-> & t & ds & Hf & Hm & Hl). split; [reflexivity|].
        exists t, ds. split; [|auto]. apply first_anchor_cons. right.
        split; [congruence | exact Hf].
      * intros (-> & t & ds & Hf & Hm & Hl). split; [reflexivity|].
        exists t, ds. split; [|auto].
        apply first_anchor_cons in Hf as [[-> _] | [_ Hf]]; [congruence | exact Hf].
    + destruct (int_of_digits_cases ds') as [[Ei Hlen] | [Ei Hlen]]; rewrite Ei;
        cbn [bind].
      * split.
        -- intros [= <-]. split; [reflexivity|]. exists t', ds'.
           split; [apply first_anchor_cons; auto | auto].
        -- intros (-> & _). reflexivity.
      * rewrite IH. split.
        -- intros (-> & t & ds & Hf & Hm & Hl). split; [reflexivity|].
           assert (Hne : t <> t') by (intros ->; by rewrite lookup_insert_eq in Hm).
           rewrite lookup_insert_ne in Hm by congruence.
           exists t, ds. split; [|auto]. apply first_anchor_cons. auto.
        -- intros (-> & t & ds & Hf & Hm & Hl). split; [reflexivity|].
           apply first_anchor_cons in Hf as [[-> ->] | [Hne Hf]]; [lia|].
           exists t, ds. rewrite lookup_insert_ne by congruence. auto.
Qed.

(** The index of the Flask parser, when the loop returns one: the first
    anchor of an identifier, in the order of [re.findall], gives its
    rank. *)
Lemma flask_rank_index_first_wins (html : string) (index : gmap string Z)
    (pre post : list (string * string)) (t ds : string) :
  ControlPanel.rank_index html = Ok index ->
  findall match_anchor html = pre ++ (t, ds) :: post ->
  t ∉ pre.*1 ->
  index !! t = Some (digits_value ds).
Proof.
  intros Hi H Hpre. apply (rank_index_loop_entries _ _ _ Hi). right.
  split; [apply lookup_empty|]. exists ds. split; [|reflexivity].
  exists pre, post. auto.
Qed.

Lemma rank_index_returns (html : string) :
  Spec.anchors_readable (findall match_anchor html) ->
  exists index, ControlPanel.rank_index html = Ok index.
Proof.
  intros Hr. destruct (ControlPanel.rank_index html) as [index|e] eqn:E; [eauto|].
  apply rank_index_loop_raises in E as (_ & t & ds & Hf & _ & Hl).
  apply Hr in Hf. lia.
Qed.

Lemma spider_rank_index_loop_keeps (post : list string) (t : string) (v : Z) :
  Forall (fun h => forall p, search match_anchor h = Some p -> fst p <> t) post ->
  forall m index : gmap string Z,
    m !! t = Some v ->
    Spider.rank_index_loop post m = Ok index -> index !! t = Some v.
Proof.
  induction 1 as [|h post Hh _ IH]; intros m index Hm; cbn [Spider.rank_index_loop].
  - intros [= <-]. exact Hm.
  - destruct (search match_anchor h) as [[t' ds']|] eqn:E; [|by apply IH].
    destruct (int_of_digits_cases ds') as [[Ei _] | [Ei _]]; rewrite Ei; cbn [bind];
      [discriminate|].
    apply IH. rewrite lookup_insert_ne; [exact Hm|].
    intros ->. exact (Hh _ eq_refl eq_refl).
Qed.

Lemma spider_rank_index_loop_last (pre post : list string) (href t ds : string) :
  search match_anchor href = Some (t, ds) ->
  Forall (fun h => forall p, search match_anchor h = Some p -> fst p <> t) post ->
  forall m index : gmap string Z,
    Spider.rank_index_loop (pre ++ href :: post) m = Ok index ->
    index !! t = Some (digits_value ds).
Proof.
  intros Hh Hpost. induction pre as [|h pre IH]; intros m index;
    cbn [Spider.rank_index_loop app].
  - rewrite Hh.
    destruct (int_of_digits_cases ds) as [[Ei _] | [Ei _]]; rewrite Ei; cbn [bind];
      [discriminate|].
    apply (spider_rank_index_loop_keeps post t _ Hpost). apply lookup_insert_eq.
  - destruct (search match_anchor h) as [[t' ds']|]; [|apply IH].
    destruct (int_of_digits_cases ds') as [[Ei _] | [Ei _]]; rewrite Ei; cbn [bind];
      [discriminate | apply IH].
Qed.

(** The index of the spider, when the loop returns one: the last link of
    an identifier gives its rank, every matching link assigning its
    pair. *)
Lemma spider_rank_index_last_wins (response : Spider.Response)
    (index : gmap string Z) (pre post : list string) (href t ds : string) :
  Spider.rank_index response = Ok index ->
  Spider.hrefs response = pre ++ href :: post ->
  search match_anchor href = Some (t, ds) ->
  Forall (fun h => forall p, search match_anchor h = Some p -> fst p <> t) post ->
  index !! t = Some (digits_value ds).
Proof.
  unfold Spider.rank_index. intros Hi H Hh Hpost. rewrite H in Hi.
  exact (spider_rank_index_loop_last pre post href t ds Hh Hpost _ _ Hi).
Qed.

(** The spider's loop raises exactly when a matching link carries more
    digits than [int] accepts. *)
Lemma spider_rank_index_loop_raises (hrefs : list string) :
  forall (m : gmap string Z) (e : exn),
    Spider.rank_index_loop hrefs m = Raise e
    <-> e = ValueError
        /\ exists href t ds, href ∈ hrefs /\ search match_anchor href = Some (t, ds)
                             /\ (max_str_digits < String.length ds)%nat.
Proof.
  induction hrefs as [|h rest IH]; intros m e; cbn [Spider.rank_index_loop].
  - split; [discriminate|]. intros (_ & href & t & ds & H & _).
    by apply elem_of_nil in H.
  - destruct (search match_anchor h) as [[t' ds']|] eqn:E.
    + destruct (int_of_digits_cases ds') as [[Ei Hlen] | [Ei Hlen]]; rewrite Ei;
        cbn [bind].
      * split.
        -- intros [= <-]. split; [reflexivity|]. exists h, t', ds'.
           split; [apply elem_of_cons; auto | auto].
        -- intros (-> & _). reflexivity.
      * rewrite IH. split.
        -- intros (-> & href & t & ds & Hin & Hs & Hl). split; [reflexivity|].
           exists href, t, ds. split; [apply elem_of_cons; auto | auto].
        -- intros (-> & href & t & ds & Hin & Hs & Hl). split; [reflexivity|].
           apply elem_of_cons in Hin as [->|Hin].
           ++ rewrite E in Hs. injection Hs as <- <-. lia.
           ++ exists href, t, ds. auto.
    + rewrite IH. split.
      * intros (-> & href & t & ds & Hin & Hs & Hl). split; [reflexivity|].
        exists href, t, ds. split; [apply elem_of_cons; auto | auto].
      * intros (-> & href & t & ds & Hin & Hs & Hl). split; [reflexivity|].
        apply elem_of_cons in Hin as [->|Hin]; [congruence|].
        exists href, t, ds. auto.
Qed.

(** C1. On a page that links the film tt0111161 twice, with the ranks 1
    and 7 in this order, the Flask parser records the rank 1 and emits it,
    while the spider records the rank 7 and emits it: in the spider the
    later link overwrites the rank of the first. *)
Theorem spider_rank_overwritten_by_later_link :
  (exists index,
      ControlPanel.rank_index Samples.twice_linked_page = Ok index
      /\ index !! "tt0111161"%string = Some 1)
  /\ ControlPanel.parse_top250_from_html Json.loads Samples.twice_linked_page
     = Ok [Samples.one_film_record 1]
  /\ (exists index,
        Spider.rank_index Samples.twice_linked_response = Ok index
        /\ index !! "tt0111161"%string = Some 7)
  /\ Spider.parse Json.loads Samples.twice_linked_response
     = Ok [Samples.one_film_record 7].
Proof.
  split; [eexists; split; vm_compute; reflexivity|].
  split; [vm_compute; reflexivity|].
  split; [eexists; split; vm_compute; reflexivity|].
  vm_compute; reflexivity.
Qed.

(** ** The structured-data extractor *)

(** The Flask loop is the spider's loop run with the decoder applied to
    the stripped block. *)
Lemma flask_select_as_spider (loads : string -> outcome) (scripts : list string) :
  ControlPanel.select_item_list loads scripts
  = Spider.select_item_list (fun raw => loads (strip raw)) scripts.
Proof.
  induction scripts as [|raw rest IH]; simpl; [reflexivity|].
  rewrite IH. reflexivity.
Qed.

Lemma is_item_list_dict (v : json) :
  is_item_list v = true -> exists d, v = JObj d.
Proof. destruct v; simpl; try discriminate. eauto. Qed.

Lemma select_skips (decode : string -> outcome) (block : string)
    (rest : list string) :
  Spec.passed_over decode block ->
  Spider.select_item_list decode (block :: rest) = Spider.select_item_list decode rest.
Proof.
  unfold Spec.passed_over. cbn [Spider.select_item_list].
  destruct (decode block) as [v| |c]; [intros ->; reflexivity | reflexivity | intros []].
Qed.

Lemma select_skips_all (decode : string -> outcome) (before rest : list string) :
  Forall (Spec.passed_over decode) before ->
  Spider.select_item_list decode (before ++ rest) = Spider.select_item_list decode rest.
Proof.
  induction 1 as [|b before Hb _ IH]; [reflexivity|].
  rewrite <- IH. apply (select_skips decode b). exact Hb.
Qed.

Lemma select_first_item_list (decode : string -> outcome) :
  Spec.selects_first_item_list decode (Spider.select_item_list decode).
Proof.
  split; [|split; [|split]].
  - intros block rest H. apply select_skips. unfold Spec.passed_over. by rewrite H.
  - intros before block after v Hbefore Hv Hq.
    destruct (is_item_list_dict v Hq) as [d ->]. exists d. split; [reflexivity|].
    rewrite (select_skips_all decode before _ Hbefore).
    cbn [Spider.select_item_list]. rewrite Hv, Hq. reflexivity.
  - intros blocks H. rewrite <- (app_nil_r blocks).
    apply (select_skips_all decode blocks [] H).
  - intros before block after c Hbefore Hc.
    rewrite (select_skips_all decode before _ Hbefore).
    cbn [Spider.select_item_list]. rewrite Hc. reflexivity.
Qed.

(** The three ways the scan of the blocks ends. *)
Lemma select_cases (decode : string -> outcome) (scripts : list string) :
  (Forall (Spec.passed_over decode) scripts
   /\ Spider.select_item_list decode scripts = Ok None)
  \/ exists before block after,
      scripts = before ++ block :: after
      /\ Forall (Spec.passed_over decode) before
      /\ ((exists c, decode block = Crash c
                     /\ Spider.select_item_list decode scripts = Raise (crash_exn c))
          \/ (exists d, decode block = Decoded (JObj d)
                        /\ is_item_list (JObj d) = true
                        /\ Spider.select_item_list decode scripts = Ok (Some d))).
Proof.
  induction scripts as [|b rest IH].
  - left. split; [constructor | reflexivity].
  - assert (Hskip : Spec.passed_over decode b ->
              (Forall (Spec.passed_over decode) (b :: rest)
               /\ Spider.select_item_list decode (b :: rest) = Ok None)
              \/ exists before block after,
                  b :: rest = before ++ block :: after
                  /\ Forall (Spec.passed_over decode) before
                  /\ ((exists c, decode block = Crash c
                         /\ Spider.select_item_list decode (b :: rest)
                            = Raise (crash_exn c))
                      \/ (exists d, decode block = Decoded (JObj d)
                            /\ is_item_list (JObj d) = true
                            /\ Spider.select_item_list decode (b :: rest)
                               = Ok (Some d)))).
    { intros Hb. rewrite (select_skips decode b rest Hb).
      destruct IH as [[Hall Hsel] | (before & block & after & -> & Hall & Hend)].
      - left. split; [by constructor | exact Hsel].
      - right. exists (b :: before), block, after.
        split; [reflexivity|]. split; [by constructor | exact Hend]. }
    destruct (decode b) as [v| |c] eqn:E.
    + destruct (is_item_list v) eqn:Q.
      * destruct (is_item_list_dict v Q) as [d ->]. right. exists [], b, rest.
        split; [reflexivity|]. split; [constructor|]. right. exists d.
        split; [exact E|]. split; [exact Q|].
        cbn [Spider.select_item_list]. rewrite E, Q. reflexivity.
      * apply Hskip. unfold Spec.passed_over. rewrite E. exact Q.
    + apply Hskip. unfold Spec.passed_over. by rewrite E.
    + right. exists [], b, rest. split; [reflexivity|]. split; [constructor|].
      left. exists c. split; [exact E|].
      cbn [Spider.select_item_list]. rewrite E. reflexivity.
Qed.

Lemma select_raises (decode : string -> outcome) (scripts : list string) (e : exn) :
  Spider.select_item_list decode scripts = Raise e
  <-> exists before block after c,
        scripts = before ++ block :: after
        /\ Forall (Spec.passed_over decode) before
        /\ decode block = Crash c /\ e = crash_exn c.
Proof.
  split.
  - intros H.
    destruct (select_cases decode scripts)
      as [[_ Hsel] | (before & block & after & Heq & Hall & [(c & Hc & Hsel) | (d & _ & _ & Hsel)])];
      rewrite Hsel in H; try discriminate.
    injection H as <-. exists before, block, after, c. auto.
  - intros (before & block & after & c & -> & Hall & Hc & ->).
    destruct (select_first_item_list decode) as (_ & _ & _ & H). by apply H.
Qed.

Lemma select_some (decode : string -> outcome) (scripts : list string) (d : dict) :
  Spider.select_item_list decode scripts = Ok (Some d)
  <-> exists before block after,
        scripts = before ++ block :: after
        /\ Forall (Spec.passed_over decode) before
        /\ decode block = Decoded (JObj d) /\ is_item_list (JObj d) = true.
Proof.
  split.
  - intros H.
    destruct (select_cases decode scripts)
      as [[_ Hsel] | (before & block & after & Heq & Hall & [(c & Hc & Hsel) | (d' & Hd & Hq & Hsel)])];
      rewrite Hsel in H; try discriminate.
    injection H as <-. exists before, block, after. auto.
  - intros (before & block & after & -> & Hall & Hd & Hq).
    destruct (select_first_item_list decode) as (_ & H & _).
    destruct (H before block after (JObj d) Hall Hd Hq) as (d' & [= <-] & Hsel).
    exact Hsel.
Qed.

(** C6, as the code has it.  In both parsers the loop over the script
    blocks passes over every block on which the decoder raises
    [json.JSONDecodeError] and every block whose decoded value does not
    qualify; it returns the first block, in document order, whose decoded
    value is a dict with [@type] equal to [ItemList] and with an
    [itemListElement] key, whatever follows that block; it selects nothing
    when every block is passed over; and it raises the decoder's
    [RecursionError] or [ValueError] on the first block where the decoder
    raises one, when no block before it qualifies.  The Flask parser
    decodes the stripped block, the spider the block as it is. *)
Theorem first_item_list_block_selected (loads : string -> outcome) :
  Spec.selects_first_item_list (fun raw => loads (strip raw))
    (ControlPanel.select_item_list loads)
  /\ Spec.selects_first_item_list loads (Spider.select_item_list loads).
Proof.
  split; [|apply select_first_item_list].
  destruct (select_first_item_list (fun raw => loads (strip raw)))
    as (H1 & H2 & H3 & H4).
  split; [|split; [|split]].
  - intros block rest H. rewrite !flask_select_as_spider. by apply H1.
  - intros before block after v Hb Hv Hq.
    destruct (H2 before block after v Hb Hv Hq) as (d & -> & Hd).
    exists d. split; [reflexivity|]. by rewrite flask_select_as_spider.
  - intros blocks H. rewrite flask_select_as_spider. by apply H3.
  - intros before block after c Hb Hc. rewrite flask_select_as_spider. by apply H4.
Qed.

(** Of the four sample blocks the third is selected by both parsers: the
    truncated block and the block of another type are passed over and
    the second item list is never looked at. *)
Lemma first_item_list_block_selected_witness :
  ControlPanel.select_item_list Json.loads Samples.mixed_blocks
  = Ok (Some Samples.one_film_data)
  /\ Spider.select_item_list Json.loads Samples.mixed_blocks
     = Ok (Some Samples.one_film_data).
Proof.
  destruct (first_item_list_block_selected Json.loads) as [(_ & F & _) (_ & S & _)].
  split.
  - destruct (F (take 2 Samples.mixed_blocks) Samples.one_film_block
                [Samples.film_list_block] (JObj Samples.one_film_data))
      as (d & Hd & Hsel).
    + constructor; [vm_compute; exact I|].
      constructor; [vm_compute; reflexivity|]. constructor.
    + vm_compute. reflexivity.
    + reflexivity.
    + injection Hd as <-. exact Hsel.
  - destruct (S (take 2 Samples.mixed_blocks) Samples.one_film_block
                [Samples.film_list_block] (JObj Samples.one_film_data))
      as (d & Hd & Hsel).
    + constructor; [vm_compute; exact I|].
      constructor; [vm_compute; reflexivity|]. constructor.
    + vm_compute. reflexivity.
    + reflexivity.
    + injection Hd as <-. exact Hsel.
Defined.

(** C6, as stated, fails on two lists of blocks.  An item list that
    follows a form feed does not parse as JSON as it was extracted, yet
    the Flask parser, which strips the block first, selects it and never
    reaches the item list after it.  A block that holds an integer of 4301
    digits makes [json.loads] raise a [ValueError], which is no
    [json.JSONDecodeError]: both loops raise it instead of going on to the
    item list that follows. *)
Lemma unparsable_block_is_not_skipped :
  Json.loads Samples.form_feed_block = DecodeError
  /\ Spec.qualifies Json.loads Samples.film_list_block = true
  /\ ControlPanel.select_item_list Json.loads
       [Samples.form_feed_block; Samples.film_list_block]
     = Ok (Some Samples.one_film_data)
  /\ Json.loads Samples.long_integer_block = Crash LongInteger
  /\ Spec.qualifies Json.loads Samples.one_film_block = true
  /\ ControlPanel.select_item_list Json.loads
       [Samples.long_integer_block; Samples.one_film_block]
     = Raise ValueError
  /\ Spider.select_item_list Json.loads
       [Samples.long_integer_block; Samples.one_film_block]
     = Raise ValueError.
Proof. repeat split; vm_compute; reflexivity. Qed.

(** ** Texts and the identifier pattern *)

Lemma append_nil_l (s : string) : EmptyString +:+ s = s.
Proof. reflexivity. Qed.

Lemma append_cons (c : ascii) (a b : string) : String c a +:+ b = String c (a +:+ b).
Proof. reflexivity. Qed.

Lemma append_inj_length (a b a' b' : string) :
  a +:+ b = a' +:+ b' -> String.length a = String.length a' -> a = a' /\ b = b'.
Proof.
  revert a'. induction a as [|c a IH]; intros [|c' a']; try discriminate.
  - rewrite !append_nil_l. auto.
  - rewrite !append_cons. intros [= <- H] [= Hl].
    destruct (IH a' H Hl) as [-> ->]. auto.
Qed.

Lemma strip_prefix_app (p s : string) : strip_prefix p (p +:+ s) = Some s.
Proof.
  induction p as [|a p IH]; simpl; [by destruct s|].
  rewrite Ascii.eqb_refl. exact IH.
Qed.

Lemma strip_prefix_Some (p s r : string) :
  strip_prefix p s = Some r -> s = p +:+ r.
Proof.
  revert s. induction p as [|a p IH]; intros s; simpl.
  - destruct s; intros [= <-]; reflexivity.
  - destruct s as [|b s]; [discriminate|].
    destruct (Ascii.eqb_spec a b) as [<-|]; [|discriminate].
    intros H. rewrite append_cons, <- (IH s H). reflexivity.
Qed.

Lemma span_digits_split (s ds r : string) :
  span_digits s = (ds, r) -> s = ds +:+ r /\ Spec.all_digits ds = true.
Proof.
  revert ds r. induction s as [|c s IH]; intros ds r; simpl.
  - intros [= <- <-]. auto.
  - destruct (is_digit c) eqn:Hc.
    + destruct (span_digits s) as [ds' r'] eqn:E. intros [= <- <-].
      destruct (IH ds' r' eq_refl) as [-> Hds]. simpl. rewrite Hc. auto.
    + intros [= <- <-]. auto.
Qed.

Lemma span_digits_all_digits (s ds r : string) :
  span_digits s = (ds, r) -> Spec.all_digits ds = true.
Proof. intros H. by apply span_digits_split in H as [_ H]. Qed.

Lemma span_digits_stops (ds : string) (c : ascii) (r : string) :
  Spec.all_digits ds = true -> is_digit c = false ->
  span_digits (ds +:+ String c r) = (ds, String c r).
Proof.
  intros Hds Hc. induction ds as [|d ds IH].
  - rewrite append_nil_l. simpl. rewrite Hc. reflexivity.
  - simpl in Hds. apply andb_true_iff in Hds as [Hd Hds].
    rewrite append_cons. simpl. rewrite Hd, (IH Hds). reflexivity.
Qed.

Lemma digits1_split (s ds r : string) :
  digits1 s = Some (ds, r) ->
  s = ds +:+ r /\ ds <> EmptyString /\ Spec.all_digits ds = true.
Proof.
  unfold digits1. destruct (span_digits s) as [ds' r'] eqn:E.
  destruct ds' as [|c ds']; [discriminate|]. intros [= <- <-].
  destruct (span_digits_split _ _ _ E) as [-> H]. auto.
Qed.

Lemma digits1_all_digits (s ds r : string) :
  digits1 s = Some (ds, r) -> Spec.all_digits ds = true.
Proof. intros H. by apply digits1_split in H as (_ & _ & H). Qed.

Lemma match_tconst_of_title_path (ids tail : string) :
  ids <> EmptyString -> Spec.all_digits ids = true ->
  match_tconst ("/title/tt" +:+ ids +:+ "/" +:+ tail) = Some ("tt" +:+ ids, tail).
Proof.
  intros Hne Hds. unfold match_tconst. rewrite strip_prefix_app.
  cbn [mbind option_bind]. change ("/" +:+ tail) with (String "/" tail).
  unfold digits1. rewrite (span_digits_stops ids "/" tail Hds eq_refl).
  destruct ids; [contradiction|]. reflexivity.
Qed.

(** A match of the identifier pattern at the head of a text is what the
    specification calls an identifier there, and conversely. *)
Lemma match_tconst_starts (s t r : string) :
  match_tconst s = Some (t, r) -> Spec.starts_with_identifier s t.
Proof.
  unfold match_tconst. intros H.
  destruct (strip_prefix "/title/tt" s) as [r0|] eqn:E0; [|discriminate].
  cbn [mbind option_bind] in H.
  destruct (digits1 r0) as [[ds r1]|] eqn:E1; [|discriminate].
  cbn [mbind option_bind] in H.
  destruct (strip_prefix "/" r1) as [r2|] eqn:E2; [|discriminate].
  cbn [mbind option_bind] in H. injection H as <- <-.
  apply strip_prefix_Some in E0, E2. apply digits1_split in E1 as (E1 & Hne & Hds).
  exists ds, r2. subst. auto.
Qed.

Lemma starts_match_tconst (s t : string) :
  Spec.starts_with_identifier s t -> exists r, match_tconst s = Some (t, r).
Proof.
  intros (ids & rest & Hne & Hds & -> & ->). exists rest.
  by apply match_tconst_of_title_path.
Qed.

Lemma match_tconst_digits (s t r : string) :
  match_tconst s = Some (t, r) ->
  exists ids, t = "tt" +:+ ids /\ ids <> EmptyString /\ Spec.all_digits ids = true.
Proof.
  intros H. apply match_tconst_starts in H as (ids & rest & Hne & Hds & -> & _).
  eauto.
Qed.

Lemma search_here {A : Type} (m : string -> option (A * string)) (s : string)
    (a : A) (r : string) :
  m s = Some (a, r) -> search m s = Some a.
Proof. intros H. destruct s; simpl; rewrite H; reflexivity. Qed.

Lemma search_skip {A : Type} (m : string -> option (A * string)) (c : ascii)
    (s : string) :
  m (String c s) = None -> search m (String c s) = search m s.
Proof. intros H. simpl. rewrite H. reflexivity. Qed.

(** [re.search] returns the match at the leftmost place that has one. *)
Lemma search_spec {A : Type} (m : string -> option (A * string)) (s : string) (a : A) :
  search m s = Some a ->
  exists before s' r,
    s = before +:+ s' /\ m s' = Some (a, r)
    /\ forall before' s'',
        s = before' +:+ s'' -> is_Some (m s'') ->
        (String.length before <= String.length before')%nat.
Proof.
  induction s as [|c s IH]; simpl.
  - destruct (m EmptyString) as [[a' r]|] eqn:E; [|discriminate].
    intros [= ->]. exists EmptyString, EmptyString, r.
    split; [reflexivity|]. split; [exact E|]. intros. simpl. lia.
  - destruct (m (String c s)) as [[a' r]|] eqn:E.
    + intros [= ->]. exists EmptyString, (String c s), r.
      split; [reflexivity|]. split; [exact E|]. intros. simpl. lia.
    + intros H. destruct (IH H) as (before & s' & r & -> & Hm & Hmin).
      exists (String c before), s', r. split; [reflexivity|]. split; [exact Hm|].
      intros [|c' b'] s'' Heq Hsome.
      * rewrite append_nil_l in Heq. subst s''. rewrite E in Hsome.
        by destruct Hsome.
      * rewrite append_cons in Heq. injection Heq as <- Heq.
        pose proof (Hmin b' s'' Heq Hsome). simpl. lia.
Qed.

Lemma search_none {A : Type} (m : string -> option (A * string)) (s : string) :
  search m s = None ->
  forall before s', s = before +:+ s' -> m s' = None.
Proof.
  induction s as [|c s IH]; simpl.
  - destruct (m EmptyString) as [[a r]|] eqn:E; [discriminate|].
    intros _ [|c' b'] s'; [|discriminate].
    rewrite append_nil_l. intros <-. exact E.
  - destruct (m (String c s)) as [[a r]|] eqn:E; [discriminate|].
    intros H [|c' b'] s'.
    + rewrite append_nil_l. intros <-. exact E.
    + rewrite append_cons. intros [= <- Heq]. exact (IH H b' s' Heq).
Qed.

Lemma search_found {A : Type} (m : string -> option (A * string)) (s : string) (a : A) :
  search m s = Some a -> exists s' r, m s' = Some (a, r).
Proof. intros H. destruct (search_spec m s a H) as (_ & s' & r & _ & Hm & _). eauto. Qed.

(** The identifier the code derives from a url is the identifier of the
    specification's wording. *)
Lemma tconst_of_identifier (u t : string) :
  tconst_of (JStr u) = Some t -> Spec.identifier_of u t.
Proof.
  simpl. intros H.
  destruct (search_spec _ _ _ H) as (before & s' & r & -> & Hm & Hmin).
  exists before, s'. split; [reflexivity|].
  split; [exact (match_tconst_starts _ _ _ Hm)|].
  intros before' s'' t' Heq Hst. apply (Hmin before' s'' Heq).
  destruct (starts_match_tconst _ _ Hst) as [r' ->]. eauto.
Qed.

Lemma tconst_of_no_identifier (u : string) :
  tconst_of (JStr u) = None -> Spec.no_identifier u.
Proof.
  simpl. intros H before s t Heq Hst.
  destruct (starts_match_tconst _ _ Hst) as [r Hr].
  rewrite (search_none _ _ H before s Heq) in Hr. discriminate.
Qed.

Lemma identifier_tconst_of (u t : string) :
  Spec.identifier_of u t -> tconst_of (JStr u) = Some t.
Proof.
  intros (before & s & Heq & Hst & Hmin). simpl.
  destruct (starts_match_tconst _ _ Hst) as [r Hr].
  destruct (search match_tconst u) as [t'|] eqn:E.
  - destruct (search_spec _ _ _ E) as (b0 & s0 & r0 & Heq0 & Hm0 & Hmin0).
    pose proof (match_tconst_starts _ _ _ Hm0) as Hst0.
    assert (H1 : (String.length b0 <= String.length before)%nat)
      by (apply (Hmin0 before s Heq); rewrite Hr; eauto).
    pose proof (Hmin b0 s0 t' Heq0 Hst0) as H2.
    rewrite Heq in Heq0.
    destruct (append_inj_length _ _ _ _ Heq0) as [-> ->]; [lia|]. congruence.
  - rewrite (search_none _ _ E before s Heq) in Hr. discriminate.
Qed.

Lemma identifier_unique (u t t' : string) :
  Spec.identifier_of u t -> Spec.identifier_of u t' -> t = t'.
Proof.
  intros H H'. apply identifier_tconst_of in H, H'. congruence.
Qed.

Lemma tconst_of_string (url : json) (t : string) :
  tconst_of url = Some t -> exists u, url = JStr u.
Proof. destruct url; simpl; try discriminate. eauto. Qed.

Lemma tconst_of_nonempty (u : json) (t : string) :
  tconst_of u = Some t -> t <> EmptyString.
Proof.
  intros H. destruct (tconst_of_string _ _ H) as [s ->].
  apply tconst_of_identifier in H as (_ & s' & _ & (ids & rest & _ & _ & -> & _) & _).
  discriminate.
Qed.

(** ** The merger *)

(** "falling back to i when the identifier is absent or unmapped" names
    one rank: that of the closed form. *)
Lemma resolves_closed (index : gmap string Z) (i : Z) (item : dict) (z : Z) :
  Spec.resolves index i (get item "url") z <-> z = Closed.resolve_rank index i item.
Proof.
  unfold Closed.resolve_rank. split.
  - intros [u t r Hu Hid Hr | u t Hu Hid Hr | Habs].
    + rewrite Hu, (identifier_tconst_of u t Hid), Hr. reflexivity.
    + rewrite Hu, (identifier_tconst_of u t Hid), Hr. reflexivity.
    + destruct (tconst_of (get item "url")) as [t|] eqn:E; [|reflexivity].
      destruct (tconst_of_string _ _ E) as [u Hu]. rewrite Hu in E.
      apply tconst_of_identifier in E as (before & s & Heq & Hst & _).
      destruct (Habs u Hu before s t Heq Hst).
  - intros ->. destruct (tconst_of (get item "url")) as [t|] eqn:E.
    + destruct (tconst_of_string _ _ E) as [u Hu]. rewrite Hu in E.
      apply tconst_of_identifier in E.
      destruct (index !! t) as [r|] eqn:Er.
      * exact (Spec.resolves_mapped index i _ u t r Hu E Er).
      * exact (Spec.resolves_unmapped index i _ u t Hu E Er).
    + apply Spec.resolves_absent. intros u Hu. rewrite Hu in E.
      by apply tconst_of_no_identifier.
Qed.

Lemma lookup_rank_resolve (index : gmap string Z) (i : Z) (item : dict) :
  match lookup_rank index (tconst_of (get item "url")) with
  | Some r => r
  | None => i
  end = Closed.resolve_rank index i item.
Proof.
  unfold lookup_rank, Closed.resolve_rank.
  destruct (tconst_of (get item "url")) as [t|] eqn:E; [|reflexivity].
  apply tconst_of_nonempty in E.
  destruct (String.eqb_spec t EmptyString); [contradiction|reflexivity].
Qed.

Lemma record_of_spec (index : gmap string Z) (i : Z) (item : dict) :
  record_of index i item = Closed.record index i item.
Proof.
  unfold record_of, Closed.record, Spec.aggregate_of.
  rewrite lookup_rank_resolve. reflexivity.
Qed.

(** The record the specification describes for a valid item is the record
    of the closed form, and no other. *)
Lemma emits_closed (index : gmap string Z) (i : Z) (item : dict) (r : MovieRecord) :
  Spec.emits index (i, item) r <-> r = Closed.record index i item.
Proof.
  unfold Spec.emits. cbn [fst snd]. split.
  - intros ((z & Hz & Hres) & H1 & H2 & H3 & H4 & H5 & H6 & H7 & H8 & H9 & H10).
    apply resolves_closed in Hres. subst z.
    destruct r. simpl in *. subst. reflexivity.
  - intros ->. split; [|repeat split].
    exists (Closed.resolve_rank index i item). split; [reflexivity|].
    by apply resolves_closed.
Qed.

Lemma merge_loop_spec (index : gmap string Z) (elements : list json) :
  forall (i : Z) (results : list MovieRecord),
    ControlPanel.merge_loop index i elements results
    = results ++ Closed.merger_from index i elements.
Proof.
  unfold Closed.merger_from.
  induction elements as [|e rest IH]; intros i results; simpl.
  - by rewrite app_nil_r.
  - rewrite IH. unfold Spec.valid_item at 2.
    destruct e as [| | | | | |d]; simpl; try reflexivity.
    destruct (get d "item") as [| | | | | |item]; simpl; try reflexivity.
    rewrite record_of_spec, <- app_assoc. reflexivity.
Qed.


Lemma parse_of_selected (loads : string -> outcome) (html : string) :
  ControlPanel.parse_top250_from_html loads html
  = bind (ControlPanel.rank_index html) (fun index =>
    bind (ControlPanel.select_item_list loads (ControlPanel.ldjson_scripts html))
      (fun data =>
         match data with
         | None => Ok []
         | Some data =>
             match lookup_key "itemListElement" data with
             | None => Ok []
             | Some v =>
                 bind (iterate v) (fun elements =>
                 Ok (Closed.merger index elements))
             end
         end)).
Proof.
  unfold ControlPanel.parse_top250_from_html, Closed.merger.
  destruct (ControlPanel.rank_index html) as [index|e]; [|reflexivity].
  cbn [bind].
  destruct (ControlPanel.select_item_list loads (ControlPanel.ldjson_scripts html))
    as [[data|]|e]; try reflexivity.
  cbn [bind]. destruct data as [|kv data]; [reflexivity|].
  unfold item_list_element.
  destruct (lookup_key "itemListElement" (kv :: data)) as [v|];
    unfold default; cbn [from_option id].
  - destruct (iterate v); [|reflexivity]. cbn [bind].
    rewrite merge_loop_spec. reflexivity.
  - reflexivity.
Qed.



(** ** The rank of an emitted record *)

Lemma match_anchor_all_digits (s t ds r : string) :
  match_anchor s = Some ((t, ds), r) -> Spec.all_digits ds = true.
Proof.
  unfold match_anchor. intros H.
  destruct (match_tconst s) as [[t0 r0]|]; [|discriminate].
  cbn [mbind option_bind] in H.
  destruct (strip_prefix "?ref_=chttp_t_" r0) as [r1|]; [|discriminate].
  cbn [mbind option_bind] in H.
  destruct (digits1 r1) as [[ds' r2]|] eqn:E; [|discriminate].
  cbn [mbind option_bind] in H. inversion H; subst.
  by apply (digits1_all_digits r1 _ r).
Qed.

Lemma match_anchor_tconst (s t ds r : string) :
  match_anchor s = Some ((t, ds), r) -> exists r0, match_tconst s = Some (t, r0).
Proof.
  unfold match_anchor. intros H.
  destruct (match_tconst s) as [[t0 r0]|]; [|discriminate].
  cbn [mbind option_bind] in H.
  destruct (strip_prefix "?ref_=chttp_t_" r0) as [r1|]; [|discriminate].
  cbn [mbind option_bind] in H.
  destruct (digits1 r1) as [[ds' r2]|]; [|discriminate].
  cbn [mbind option_bind] in H. inversion H; subst. eauto.
Qed.

Lemma is_digit_value (c : ascii) : is_digit c = true -> 0 <= digit_value c <= 9.
Proof.
  unfold is_digit, digit_value. intros H.
  apply andb_true_iff in H as [H1 H2].
  apply Nat.leb_le in H1, H2. lia.
Qed.

Lemma int_of_digits_from_nonneg (ds : string) :
  Spec.all_digits ds = true -> forall acc, 0 <= acc -> 0 <= int_of_digits_from acc ds.
Proof.
  induction ds as [|c ds IH]; simpl; intros H acc Hacc; [exact Hacc|].
  apply andb_true_iff in H as [Hc Hds].
  apply IH; [exact Hds|]. pose proof (is_digit_value c Hc). lia.
Qed.

Lemma digits_value_nonneg (ds : string) :
  Spec.all_digits ds = true -> 0 <= digits_value ds.
Proof. intros H. apply int_of_digits_from_nonneg; [exact H | lia]. Qed.

Lemma findall_from_found {A : Type} (m : string -> option (A * string)) (a : A) :
  forall (s : string) (skip : nat),
    a ∈ findall_from m skip s -> exists s' r, m s' = Some (a, r).
Proof.
  induction s as [|c s IH]; intros skip; simpl.
  - intros H. by apply elem_of_nil in H.
  - destruct skip as [|k]; [|apply IH].
    destruct (m (String c s)) as [[a' r]|] eqn:E; [|apply IH].
    intros H. apply elem_of_cons in H as [->|H]; [eauto | by apply IH in H].
Qed.

Lemma anchor_found (html t ds : string) :
  (t, ds) ∈ findall match_anchor html ->
  Spec.all_digits ds = true
  /\ exists ids, t = "tt" +:+ ids /\ ids <> EmptyString /\ Spec.all_digits ids = true.
Proof.
  intros Hin. destruct (findall_from_found _ _ _ _ Hin) as (s' & rest & Hm).
  split; [exact (match_anchor_all_digits _ _ _ _ Hm)|].
  destruct (match_anchor_tconst _ _ _ _ Hm) as [r0 Ht].
  exact (match_tconst_digits _ _ _ Ht).
Qed.

(** Every entry of the index the Flask parser builds is the number of the
    first anchor of its identifier on the page, and no entry is
    negative. *)
Lemma rank_index_origin (html : string) (index : gmap string Z) (t : string) (r : Z) :
  ControlPanel.rank_index html = Ok index ->
  index !! t = Some r
  <-> exists ds, Spec.first_anchor (findall match_anchor html) t ds
                 /\ r = digits_value ds.
Proof.
  intros Hi. rewrite (rank_index_loop_entries _ _ _ Hi t r), lookup_empty.
  split; [intros [H | (_ & H)]; [discriminate | exact H] | auto].
Qed.

Lemma enumerate_position (elements : list json) :
  forall (start i : Z) (e : json),
    (i, e) ∈ Spec.enumerate start elements -> start <= i.
Proof.
  induction elements as [|x rest IH]; intros start i e; simpl; intros H.
  - by apply elem_of_nil in H.
  - apply elem_of_cons in H as [[= -> ->]|H]; [lia|].
    apply IH in H. lia.
Qed.

Lemma merger_record (index : gmap string Z) (elements : list json) (r : MovieRecord) :
  r ∈ Closed.merger index elements ->
  exists i item, 1 <= i /\ r = Closed.record index i item.
Proof.
  unfold Closed.merger, Closed.merger_from. intros H.
  apply list_elem_of_omap in H as ([i e] & Hin & Hr). simpl in Hr.
  destruct (Spec.valid_item e) as [item|]; [|discriminate].
  inversion Hr; subst. exists i, item.
  split; [by apply enumerate_position in Hin | reflexivity].
Qed.

Lemma parse_returns (loads : string -> outcome) (html : string)
    (recs : list MovieRecord) :
  ControlPanel.parse_top250_from_html loads html = Ok recs ->
  exists index,
    ControlPanel.rank_index html = Ok index
    /\ (recs = [] \/ exists elements, recs = Closed.merger index elements).
Proof.
  rewrite parse_of_selected.
  destruct (ControlPanel.rank_index html) as [index|e]; [|discriminate].
  cbn [bind]. intros H. exists index. split; [reflexivity|].
  destruct (ControlPanel.select_item_list loads (ControlPanel.ldjson_scripts html))
    as [[data|]|e]; cbn [bind] in H; [| |discriminate].
  - destruct (lookup_key "itemListElement" data) as [v|].
    + destruct (iterate v) as [elements|e]; cbn [bind] in H; [|discriminate].
      injection H as <-. eauto.
    + injection H as <-. auto.
  - injection H as <-. auto.
Qed.

(** C2, as the code has it.  Every record the Flask parser emits has an
    integer rank, never [None], that is not negative; the rank is 0
    exactly when the url of the record holds an identifier whose first
    anchor on the page carries the number 0, and at least 1 otherwise. *)
Theorem emitted_rank_is_nonnegative_integer (loads : string -> outcome)
    (html : string) (recs : list MovieRecord) (r : MovieRecord) :
  ControlPanel.parse_top250_from_html loads html = Ok recs ->
  r ∈ recs ->
  exists z : Z,
    rank r = JInt z
    /\ 0 <= z
    /\ (z = 0
        <-> exists u t ds,
              url r = JStr u /\ Spec.identifier_of u t
              /\ Spec.first_anchor (findall match_anchor html) t ds
              /\ digits_value ds = 0).
Proof.
  intros Hp Hr. apply parse_returns in Hp as (index & Hi & [-> | [elements ->]]).
  - by apply elem_of_nil in Hr.
  - apply merger_record in Hr as (i & item & Hpos & ->).
    cbn [rank url Closed.record].
    exists (Closed.resolve_rank index i item). split; [reflexivity|].
    unfold Closed.resolve_rank.
    destruct (tconst_of (get item "url")) as [t|] eqn:Et.
    + destruct (tconst_of_string _ _ Et) as [u Hu]. rewrite Hu in Et |- *.
      pose proof (tconst_of_identifier _ _ Et) as Hid.
      destruct (index !! t) as [z|] eqn:Ez.
      * apply (rank_index_origin _ _ _ _ Hi) in Ez as (ds & Hf & ->).
        split.
        { apply digits_value_nonneg.
          exact (proj1 (anchor_found _ _ _ (first_anchor_elem _ _ _ Hf))). }
        split.
        -- intros Hz. exists u, t, ds. auto.
        -- intros (u' & t' & ds' & [= <-] & Hid' & Hf' & Hz).
           rewrite <- (identifier_unique _ _ _ Hid Hid') in Hf'.
           by rewrite (first_anchor_unique _ _ _ _ Hf Hf').
      * split; [lia|]. split; [lia|].
        intros (u' & t' & ds' & [= <-] & Hid' & Hf' & _).
        rewrite <- (identifier_unique _ _ _ Hid Hid') in Hf'.
        assert (Hsome : index !! t = Some (digits_value ds'))
          by (apply (rank_index_origin _ _ _ _ Hi); eauto).
        congruence.
    + split; [lia|]. split; [lia|].
      intros (u' & t' & ds' & Hu' & Hid' & _). rewrite Hu' in Et.
      apply identifier_tconst_of in Hid'. congruence.
Qed.

(** On the page whose only title link carries the number 0 the record has
    the rank 0. *)
Lemma emitted_rank_is_nonnegative_integer_witness :
  exists z : Z,
    rank (Samples.one_film_record 0) = JInt z
    /\ 0 <= z
    /\ (z = 0
        <-> exists u t ds,
              url (Samples.one_film_record 0) = JStr u /\ Spec.identifier_of u t
              /\ Spec.first_anchor (findall match_anchor Samples.rank_zero_page) t ds
              /\ digits_value ds = 0).
Proof.
  apply (emitted_rank_is_nonnegative_integer Json.loads Samples.rank_zero_page
           [Samples.one_film_record 0] (Samples.one_film_record 0)).
  - vm_compute. reflexivity.
  - apply list_elem_of_singleton. reflexivity.
Defined.

(** C2, as stated, fails on that page: the parser emits a record whose
    rank is 0, which is not a positive integer. *)
Lemma rank_zero_is_emitted :
  ControlPanel.parse_top250_from_html Json.loads Samples.rank_zero_page
  = Ok [Samples.one_film_record 0]
  /\ ~ (exists z : Z, rank (Samples.one_film_record 0) = JInt z /\ 1 <= z).
Proof.
  split; [vm_compute; reflexivity|].
  intros (z & Hz & Hpos). simpl in Hz. inversion Hz. lia.
Qed.

(** ** The fetcher and the result assembly *)

Lemma incomplete_test (r : ControlPanel.Response) :
  (ControlPanel.status_code r =? 202)
  || String.eqb (ControlPanel.text r) EmptyString
  || (len (ControlPanel.text r) <? 10000)
  = bool_decide (Spec.incomplete r).
Proof.
  unfold Spec.incomplete.
  destruct (Z.eqb_spec (ControlPanel.status_code r) 202) as [H1|H1];
    destruct (String.eqb_spec (ControlPanel.text r) EmptyString) as [H2|H2];
    destruct (Z.ltb_spec (len (ControlPanel.text r)) 10000) as [H3|H3]; simpl;
    symmetry;
    first [ apply bool_decide_eq_true; tauto
          | apply bool_decide_eq_false; intros [?|[?|?]]; [contradiction..|lia] ].
Qed.

Lemma html_length_len (t : string) :
  (if String.eqb t EmptyString then 0 else len t) = len t.
Proof. destruct t; reflexivity. Qed.

Lemma slice_to_take {A : Type} (xs : list A) (n : Z) :
  0 <= n -> slice_to xs n = take (Z.to_nat n) xs.
Proof. intros H. unfold slice_to. destruct (Z.ltb_spec n 0); [lia|reflexivity]. Qed.

Lemma raise_for_status_ok (resp : ControlPanel.Response) :
  ~ (400 <= ControlPanel.status_code resp < 600) ->
  ControlPanel.raise_for_status resp = Ok tt.
Proof.
  intros H. unfold ControlPanel.raise_for_status.
  destruct (Z.leb_spec 400 (ControlPanel.status_code resp));
    destruct (Z.ltb_spec (ControlPanel.status_code resp) 600); simpl;
    first [reflexivity | lia].
Qed.

Lemma raise_for_status_error (resp : ControlPanel.Response) :
  400 <= ControlPanel.status_code resp < 600 ->
  ControlPanel.raise_for_status resp
  = Raise (HTTPError (ControlPanel.status_code resp)).
Proof.
  intros H. unfold ControlPanel.raise_for_status.
  destruct (Z.leb_spec 400 (ControlPanel.status_code resp));
    destruct (Z.ltb_spec (ControlPanel.status_code resp) 600); simpl;
    first [reflexivity | lia].
Qed.

(** One invocation of [fetch_chart]: the requests it sends, and its
    outcome from the final response. *)
Lemma fetch_chart_run (loads : string -> outcome) (net : ControlPanel.network)
    (f : ControlPanel.ChartFilters) (trace : list ControlPanel.Request) :
  ControlPanel.fetch_chart loads net f trace
  = (match Spec.final_response net trace f with
     | None => Raise ConnectionError
     | Some resp =>
         bind (ControlPanel.raise_for_status resp) (fun _ =>
         bind (ControlPanel.parse_top250_from_html loads (ControlPanel.text resp))
           (fun parsed =>
              Ok {| ControlPanel.url := ControlPanel.build_chart_url f;
                    ControlPanel.filters := f;
                    ControlPanel.diagnostics := Spec.diagnostics_of resp;
                    ControlPanel.count :=
                      Z.min (ControlPanel.limit f) (Z.of_nat (length parsed));
                    ControlPanel.movies := slice_to parsed (ControlPanel.limit f) |}))
     end,
     trace ++ Spec.requests_sent net trace f).
Proof.
  unfold ControlPanel.fetch_chart, Spec.final_response, Spec.requests_sent,
    Spec.diagnostics_of.
  unfold mbind, ControlPanel.io_mbind, ControlPanel.io_bind, ControlPanel.requests_get.
  fold (Spec.first_request f).
  destruct (net trace (Spec.first_request f)) as [r1|]; [|reflexivity].
  rewrite incomplete_test.
  destruct (bool_decide (Spec.incomplete r1)).
  - fold (Spec.retry_request f). rewrite <- app_assoc. simpl.
    destruct (net (trace ++ [Spec.first_request f]) (Spec.retry_request f)) as [r2|];
      [|reflexivity].
    unfold ControlPanel.lift, ControlPanel.ret. rewrite html_length_len.
    destruct (ControlPanel.raise_for_status r2); [|reflexivity]. simpl.
    destruct (ControlPanel.parse_top250_from_html loads (ControlPanel.text r2));
      reflexivity.
  - unfold ControlPanel.lift, ControlPanel.ret. rewrite html_length_len.
    destruct (ControlPanel.raise_for_status r1); [|reflexivity]. simpl.
    destruct (ControlPanel.parse_top250_from_html loads (ControlPanel.text r1));
      reflexivity.
Qed.

(** What the parser can raise: a [ValueError] ([int] on a long anchor
    number, or the decoder on a long integer), a [RecursionError] (the
    decoder) or a [TypeError] (elements that cannot be iterated). *)
Lemma parse_raises (loads : string -> outcome) (html : string) (e : exn) :
  ControlPanel.parse_top250_from_html loads html = Raise e ->
  e = TypeError \/ e = ValueError \/ e = RecursionError.
Proof.
  rewrite parse_of_selected.
  destruct (ControlPanel.rank_index html) as [index|e'] eqn:Ei.
  - cbn [bind]. rewrite flask_select_as_spider.
    destruct (Spider.select_item_list (fun raw => loads (strip raw))
                (ControlPanel.ldjson_scripts html)) as [[data|]|e'] eqn:Es;
      cbn [bind]; [| discriminate |].
    + destruct (lookup_key "itemListElement" data) as [v|]; [|discriminate].
      destruct v; simpl; try discriminate; intros [= <-]; auto.
    + intros [= <-]. apply select_raises in Es as (_ & _ & _ & c & _ & _ & _ & ->).
      destruct c; auto.
  - cbn [bind]. intros [= <-].
    apply rank_index_loop_raises in Ei as [-> _]. auto.
Qed.

Lemma parse_without_item_list (loads : string -> outcome) (html : string) :
  Spec.anchors_readable (findall match_anchor html) ->
  Forall (Spec.passed_over (fun raw => loads (strip raw)))
         (ControlPanel.ldjson_scripts html) ->
  ControlPanel.parse_top250_from_html loads html = Ok [].
Proof.
  intros Hr H. rewrite parse_of_selected.
  destruct (rank_index_returns html Hr) as [index ->]. cbn [bind].
  rewrite flask_select_as_spider.
  destruct (select_first_item_list (fun raw => loads (strip raw)))
    as (_ & _ & Hnone & _).
  rewrite (Hnone _ H). reflexivity.
Qed.

(** C3. When [fetch_chart] returns a result for filters whose limit [L]
    lies between 1 and 250, the result holds the first [L] of the [N]
    records parsed from the final response, and its [count] is both the
    minimum of [L] and [N] and the length of [movies]. *)
Theorem fetch_result_count_is_min (loads : string -> outcome)
    (net : ControlPanel.network) (f : ControlPanel.ChartFilters)
    (trace trace' : list ControlPanel.Request) (res : ControlPanel.FetchResult) :
  1 <= ControlPanel.limit f <= 250 ->
  ControlPanel.fetch_chart loads net f trace = (Ok res, trace') ->
  exists resp parsed,
    Spec.final_response net trace f = Some resp
    /\ ControlPanel.parse_top250_from_html loads (ControlPanel.text resp) = Ok parsed
    /\ ControlPanel.movies res = take (Z.to_nat (ControlPanel.limit f)) parsed
    /\ ControlPanel.count res
       = Z.min (ControlPanel.limit f) (Z.of_nat (length parsed))
    /\ ControlPanel.count res = Z.of_nat (length (ControlPanel.movies res)).
Proof.
  intros Hl. rewrite fetch_chart_run. intros [= H _].
  destruct (Spec.final_response net trace f) as [resp|]; [|discriminate].
  destruct (ControlPanel.raise_for_status resp); [|discriminate]. simpl in H.
  destruct (ControlPanel.parse_top250_from_html loads (ControlPanel.text resp))
    as [parsed|] eqn:Hp; [|discriminate].
  simpl in H. inversion H; subst res; clear H. simpl.
  exists resp, parsed. rewrite slice_to_take by lia.
  repeat split; try assumption. rewrite length_take. lia.
Qed.

(** The scenario of three parsed records and the limit 2. *)
Lemma fetch_result_count_is_min_witness :
  exists res resp parsed,
    Spec.final_response
      (Samples.serve [Samples.placeholder; Samples.ok_response Samples.three_film_page])
      [] Samples.limit_two = Some resp
    /\ ControlPanel.parse_top250_from_html Json.loads (ControlPanel.text resp) = Ok parsed
    /\ ControlPanel.movies res = take 2 parsed
    /\ ControlPanel.count res = Z.min 2 (Z.of_nat (length parsed))
    /\ ControlPanel.count res = Z.of_nat (length (ControlPanel.movies res)).
Proof.
  eexists.
  eapply (fetch_result_count_is_min Json.loads
            (Samples.serve [Samples.placeholder;
                            Samples.ok_response Samples.three_film_page])
            Samples.limit_two []).
  - vm_compute. split; discriminate.
  - vm_compute. reflexivity.
Defined.

Lemma requests_sent_cases (net : ControlPanel.network)
    (trace : list ControlPanel.Request) (f : ControlPanel.ChartFilters) :
  (Spec.requests_sent net trace f = [Spec.first_request f; Spec.retry_request f]
   /\ exists r1, net trace (Spec.first_request f) = Some r1 /\ Spec.incomplete r1)
  \/ (Spec.requests_sent net trace f = [Spec.first_request f]
      /\ ~ exists r1, net trace (Spec.first_request f) = Some r1 /\ Spec.incomplete r1).
Proof.
  unfold Spec.requests_sent.
  destruct (net trace (Spec.first_request f)) as [r1|].
  - destruct (bool_decide (Spec.incomplete r1)) eqn:E.
    + apply bool_decide_eq_true in E. left. eauto.
    + apply bool_decide_eq_false in E. right. split; [reflexivity|].
      intros (r & [= <-] & H). contradiction.
  - right. split; [reflexivity|]. intros (r & H & _). discriminate.
Qed.

(** C5, as the code has it.  An invocation sends the first request with
    the Spanish Accept-Language and at most one more, with Accept-Language
    [en-US,en;q=0.9]; it sends the second exactly when the first got a
    response that has the status 202 or a body shorter than 10,000
    characters (an empty one included); it raises the HTTP error exactly
    when the final response has a status from 400 to 599, and the
    connection error exactly when the last request got no response. *)
Theorem fetcher_retries_once_and_checks_status (loads : string -> outcome)
    (net : ControlPanel.network) (f : ControlPanel.ChartFilters)
    (trace : list ControlPanel.Request) :
  let out := ControlPanel.fetch_chart loads net f trace in
  let rq1 := Spec.first_request f in
  let rq2 := Spec.retry_request f in
  (out.2 = trace ++ [rq1] \/ out.2 = trace ++ [rq1; rq2])
  /\ (out.2 = trace ++ [rq1; rq2]
      <-> exists r1, net trace rq1 = Some r1 /\ Spec.incomplete r1)
  /\ ControlPanel.req_headers rq1 !! "Accept-Language"%string
     = Some "es-ES,es;q=0.9,en;q=0.8"%string
  /\ ControlPanel.req_headers rq2 !! "Accept-Language"%string
     = Some "en-US,en;q=0.9"%string
  /\ (forall st : Z,
        out.1 = Raise (HTTPError st)
        <-> exists resp, Spec.final_response net trace f = Some resp
                         /\ ControlPanel.status_code resp = st
                         /\ 400 <= st < 600)
  /\ (out.1 = Raise ConnectionError <-> Spec.final_response net trace f = None).
Proof.
  intros out rq1 rq2. subst out. rewrite fetch_chart_run. simpl.
  split; [|split; [|split; [|split; [|split]]]].
  - destruct (requests_sent_cases net trace f) as [[-> _]|[-> _]]; auto.
  - destruct (requests_sent_cases net trace f) as [[-> H]|[-> H]].
    + split; auto.
    + split; [|contradiction].
      intros E. apply app_inv_head in E. discriminate.
  - vm_compute. reflexivity.
  - apply lookup_insert_eq.
  - intros st. destruct (Spec.final_response net trace f) as [resp|].
    + destruct (decide (400 <= ControlPanel.status_code resp < 600)) as [Hs|Hs].
      * rewrite (raise_for_status_error _ Hs). simpl. split.
        -- intros [= <-]. eauto.
        -- intros (r & [= <-] & <- & _). reflexivity.
      * rewrite (raise_for_status_ok _ Hs). simpl. split.
        -- destruct (ControlPanel.parse_top250_from_html loads (ControlPanel.text resp))
             eqn:Hp; simpl; [discriminate|].
           apply parse_raises in Hp as [->|[->| ->]]; discriminate.
        -- intros (r & [= <-] & <- & Hr). contradiction.
    + split; [discriminate|]. intros (r & Hr & _). discriminate.
  - destruct (Spec.final_response net trace f) as [resp|]; [|tauto].
    split; [|discriminate].
    destruct (ControlPanel.raise_for_status resp) eqn:Hr; simpl.
    + destruct (ControlPanel.parse_top250_from_html loads (ControlPanel.text resp))
        eqn:Hp; simpl; [discriminate|].
      apply parse_raises in Hp as [->|[->| ->]]; discriminate.
    + unfold ControlPanel.raise_for_status in Hr.
      destruct ((400 <=? ControlPanel.status_code resp)
                && (ControlPanel.status_code resp <? 600)); inversion Hr. discriminate.
Qed.

(** C5, as stated, fails when the final response has the status 304: the
    status is not a 2xx one, and [fetch_chart] returns a result without
    raising. *)
Lemma not_modified_is_accepted :
  Spec.final_response (Samples.serve [Samples.not_modified; Samples.not_modified])
    [] Samples.default_filters = Some Samples.not_modified
  /\ ~ (200 <= ControlPanel.status_code Samples.not_modified < 300)
  /\ exists res,
      (ControlPanel.fetch_chart Json.loads
         (Samples.serve [Samples.not_modified; Samples.not_modified])
         Samples.default_filters []).1 = Ok res.
Proof.
  split; [vm_compute; reflexivity|].
  split; [simpl; lia|].
  eexists. vm_compute. reflexivity.
Qed.

(** C7, as the code has it.  When the final response passes the status
    check, no first anchor of an identifier on the page carries more than
    4300 digits, and every script block of the page either makes the
    decoder raise [json.JSONDecodeError] or decodes to something that is
    no item list, [fetch_chart], for filters with a limit between 1 and
    250, raises nothing and returns a result with no movies, the count 0,
    and the diagnostics of that response: its status, the length of its
    body and the number of its script blocks. *)
Theorem no_item_list_gives_empty_result (loads : string -> outcome)
    (net : ControlPanel.network) (f : ControlPanel.ChartFilters)
    (trace : list ControlPanel.Request) (resp : ControlPanel.Response) :
  1 <= ControlPanel.limit f <= 250 ->
  Spec.final_response net trace f = Some resp ->
  ~ (400 <= ControlPanel.status_code resp < 600) ->
  Spec.anchors_readable (findall match_anchor (ControlPanel.text resp)) ->
  Forall (Spec.passed_over (fun raw => loads (strip raw)))
         (ControlPanel.ldjson_scripts (ControlPanel.text resp)) ->
  (ControlPanel.fetch_chart loads net f trace).1
  = Ok {| ControlPanel.url := ControlPanel.build_chart_url f;
          ControlPanel.filters := f;
          ControlPanel.diagnostics :=
            {| ControlPanel.http_status := ControlPanel.status_code resp;
               ControlPanel.html_length := len (ControlPanel.text resp);
               ControlPanel.ldjson_blocks :=
                 Z.of_nat (length (ControlPanel.ldjson_scripts (ControlPanel.text resp))) |};
          ControlPanel.count := 0;
          ControlPanel.movies := [] |}.
Proof.
  intros Hl Hfin Hst Hread Hno. rewrite fetch_chart_run, Hfin. simpl.
  rewrite (raise_for_status_ok _ Hst), (parse_without_item_list _ _ Hread Hno). simpl.
  rewrite slice_to_take by lia. rewrite take_nil.
  unfold Spec.diagnostics_of. do 2 f_equal. cbn [length]. lia.
Qed.

(** The scenario of a page with two script blocks, a truncated one and
    one of another type, and without title links. *)
Lemma no_item_list_gives_empty_result_witness :
  (ControlPanel.fetch_chart Json.loads
     (Samples.serve [Samples.placeholder; Samples.ok_response Samples.other_type_page])
     Samples.default_filters []).1
  = Ok {| ControlPanel.url := ControlPanel.DEFAULT_CHART_URL;
          ControlPanel.filters := Samples.default_filters;
          ControlPanel.diagnostics :=
            {| ControlPanel.http_status := 200;
               ControlPanel.html_length := 165;
               ControlPanel.ldjson_blocks := 2 |};
          ControlPanel.count := 0;
          ControlPanel.movies := [] |}.
Proof.
  apply (no_item_list_gives_empty_result Json.loads
           (Samples.serve [Samples.placeholder;
                           Samples.ok_response Samples.other_type_page])
           Samples.default_filters [] (Samples.ok_response Samples.other_type_page)).
  - simpl. lia.
  - vm_compute. reflexivity.
  - simpl. lia.
  - replace (findall match_anchor _) with (@nil (string * string))
      by (vm_compute; reflexivity).
    intros t ds H. by apply first_anchor_nil in H.
  - replace (ControlPanel.ldjson_scripts _) with (take 2 Samples.mixed_blocks)
      by (vm_compute; reflexivity).
    constructor; [vm_compute; exact I|].
    constructor; [vm_compute; reflexivity|]. constructor.
Defined.

(** C7, as stated, fails on a page whose only script block is no item
    list and whose title link carries a number of 4301 digits: no block
    qualifies, the final response has the status 200, and [fetch_chart]
    raises the [ValueError] of [int]. *)
Lemma unreadable_anchor_raises :
  Forall (fun block => Spec.qualifies (fun raw => Json.loads (strip raw)) block = false)
         (ControlPanel.ldjson_scripts Samples.long_anchor_page)
  /\ Spec.final_response
       (Samples.serve [Samples.placeholder; Samples.ok_response Samples.long_anchor_page])
       [] Samples.default_filters
     = Some (Samples.ok_response Samples.long_anchor_page)
  /\ (ControlPanel.fetch_chart Json.loads
        (Samples.serve [Samples.placeholder;
                        Samples.ok_response Samples.long_anchor_page])
        Samples.default_filters []).1
     = Raise ValueError.
Proof.
  split; [|split; vm_compute; reflexivity].
  replace (ControlPanel.ldjson_scripts _) with (drop 1 (take 2 Samples.mixed_blocks))
    by (vm_compute; reflexivity).
  constructor; [vm_compute; reflexivity | constructor].
Qed.

(** C10, as the code has it.  When the first response looks incomplete
    and the retry gets a response with a 2xx status, [fetch_chart] sends
    no third request and raises no fetch error, whatever the retried
    response looks like: its outcome is that of parsing the retried body,
    a result with the diagnostics of that response when the parser
    returns. *)
Theorem retried_response_is_not_rechecked (loads : string -> outcome)
    (net : ControlPanel.network) (f : ControlPanel.ChartFilters)
    (trace : list ControlPanel.Request) (r1 r2 : ControlPanel.Response) :
  net trace (Spec.first_request f) = Some r1 ->
  Spec.incomplete r1 ->
  net (trace ++ [Spec.first_request f]) (Spec.retry_request f) = Some r2 ->
  200 <= ControlPanel.status_code r2 < 300 ->
  ControlPanel.fetch_chart loads net f trace
  = (match ControlPanel.parse_top250_from_html loads (ControlPanel.text r2) with
     | Ok parsed =>
         Ok {| ControlPanel.url := ControlPanel.build_chart_url f;
               ControlPanel.filters := f;
               ControlPanel.diagnostics := Spec.diagnostics_of r2;
               ControlPanel.count :=
                 Z.min (ControlPanel.limit f) (Z.of_nat (length parsed));
               ControlPanel.movies := slice_to parsed (ControlPanel.limit f) |}
     | Raise e => Raise e
     end,
     trace ++ [Spec.first_request f; Spec.retry_request f]).
Proof.
  intros H1 Hinc H2 Hst. rewrite fetch_chart_run.
  unfold Spec.final_response, Spec.requests_sent. rewrite H1.
  rewrite (bool_decide_eq_true_2 _ Hinc), H2.
  rewrite raise_for_status_ok by lia. reflexivity.
Qed.

(** The retried response is again the 202 placeholder: it is accepted,
    with no movies. *)
Lemma retried_response_is_not_rechecked_witness :
  ControlPanel.fetch_chart Json.loads
    (Samples.serve [Samples.placeholder; Samples.placeholder])
    Samples.default_filters []
  = (Ok {| ControlPanel.url := ControlPanel.DEFAULT_CHART_URL;
           ControlPanel.filters := Samples.default_filters;
           ControlPanel.diagnostics :=
             {| ControlPanel.http_status := 202;
                ControlPanel.html_length := 500;
                ControlPanel.ldjson_blocks := 0 |};
           ControlPanel.count := 0;
           ControlPanel.movies := [] |},
     [Spec.first_request Samples.default_filters;
      Spec.retry_request Samples.default_filters]).
Proof.
  rewrite (retried_response_is_not_rechecked Json.loads
             (Samples.serve [Samples.placeholder; Samples.placeholder])
             Samples.default_filters [] Samples.placeholder Samples.placeholder).
  - vm_compute. reflexivity.
  - vm_compute. reflexivity.
  - left. reflexivity.
  - vm_compute. reflexivity.
  - simpl. lia.
Defined.

(** C10, as stated, fails when the retried response, short and with the
    status 200, holds an item list whose [itemListElement] is [null]:
    [fetch_chart] raises a [TypeError]. *)
Lemma null_item_list_raises :
  Spec.incomplete Samples.placeholder
  /\ Spec.incomplete (Samples.ok_response Samples.null_list_page)
  /\ 200 <= ControlPanel.status_code (Samples.ok_response Samples.null_list_page) < 300
  /\ ControlPanel.fetch_chart Json.loads
       (Samples.serve [Samples.placeholder; Samples.ok_response Samples.null_list_page])
       Samples.default_filters []
     = (Raise TypeError,
        [Spec.first_request Samples.default_filters;
         Spec.retry_request Samples.default_filters]).
Proof.
  split; [left; reflexivity|].
  split; [right; right; vm_compute; reflexivity|].
  split; [simpl; lia|].
  vm_compute. reflexivity.
Qed.

(** ** The scenarios of the specification *)

(** A block with three items whose ranks, from the anchors, are 3, 1 and
    2, and the limit 2: two movies, in the order of the block, each with
    its own rank. *)
Example three_films_limit_two :
  exists res,
    (ControlPanel.fetch_chart Json.loads
       (Samples.serve [Samples.placeholder;
                       Samples.ok_response Samples.three_film_page])
       Samples.limit_two []).1 = Ok res
    /\ ControlPanel.count res = 2
    /\ rank <$> ControlPanel.movies res = [JInt 3; JInt 1]
    /\ name <$> ControlPanel.movies res = [JStr "B"; JStr "C"].
Proof. eexists. split; [vm_compute; reflexivity|]. repeat split. Qed.

(** A first answer with the status 202 and a 500-character body: one
    retry, with the other Accept-Language. *)
Example placeholder_is_retried_once :
  (ControlPanel.fetch_chart Json.loads
     (Samples.serve [Samples.placeholder;
                     Samples.ok_response Samples.three_film_page])
     Samples.limit_two []).2
  = [Spec.first_request Samples.limit_two; Spec.retry_request Samples.limit_two].
Proof. vm_compute. reflexivity. Qed.

(** An item without [aggregateRating]: both rating fields are absent. *)
Example missing_aggregate_rating :
  ratingValue (record_of ∅ 1 [("url"%string, JStr "/title/tt0111161/")]) = JNull
  /\ ratingCount (record_of ∅ 1 [("url"%string, JStr "/title/tt0111161/")]) = JNull.
Proof. split; reflexivity. Qed.

(** * Further properties of the code *)

(** ** The normalisers and the URL of a submitted form *)

Lemma sort_options_keys (value : string) :
  is_Some (ControlPanel.SORT_OPTIONS !! value) ->
  value ∈ [ "RANKING"; "USER_RATING"; "RELEASE_DATE"; "USER_RATING_COUNT";
            "TITLE_REGIONAL"; "POPULARITY"; "RUNTIME" ]%string.
Proof.
  intros [label H]. apply elem_of_list_to_map_2 in H.
  repeat (apply elem_of_cons in H; destruct H as [H|H];
          [inversion H; subst; set_solver|]).
  apply elem_of_nil in H. destruct H.
Qed.

Lemma ranking_is_sort_option :
  is_Some (ControlPanel.SORT_OPTIONS !! "RANKING"%string).
Proof. vm_compute. eauto. Qed.

Lemma normalize_sort_key (value : string) :
  is_Some (ControlPanel.SORT_OPTIONS !! ControlPanel._normalize_sort value).
Proof.
  unfold ControlPanel._normalize_sort.
  destruct (bool_decide (is_Some (ControlPanel.SORT_OPTIONS !! value))) eqn:E.
  - by apply bool_decide_eq_true in E.
  - apply ranking_is_sort_option.
Qed.

(** X1. [_normalize_sort] always returns a key of [SORT_OPTIONS]: the
    value itself when it is a key, RANKING otherwise; normalising twice
    changes nothing. *)
Theorem normalize_sort_recognised (value : string) :
  is_Some (ControlPanel.SORT_OPTIONS !! ControlPanel._normalize_sort value)
  /\ ((is_Some (ControlPanel.SORT_OPTIONS !! value)
       /\ ControlPanel._normalize_sort value = value)
      \/ (ControlPanel.SORT_OPTIONS !! value = None
          /\ ControlPanel._normalize_sort value = "RANKING"%string))
  /\ ControlPanel._normalize_sort (ControlPanel._normalize_sort value)
     = ControlPanel._normalize_sort value.
Proof.
  unfold ControlPanel._normalize_sort.
  destruct (bool_decide (is_Some (ControlPanel.SORT_OPTIONS !! value))) eqn:E.
  - apply bool_decide_eq_true in E. rewrite (bool_decide_eq_true_2 _ E). auto.
  - apply bool_decide_eq_false in E.
    rewrite (bool_decide_eq_true_2 _ ranking_is_sort_option).
    split; [apply ranking_is_sort_option|]. split; [|reflexivity].
    right. split; [|reflexivity].
    destruct (ControlPanel.SORT_OPTIONS !! value) eqn:L; [|reflexivity].
    exfalso. apply E. eauto.
Qed.

(** X2. [_normalize_direction] always returns [asc] or [desc]: the value
    itself when it is one of the two, [desc] otherwise; normalising twice
    changes nothing. *)
Theorem normalize_direction_asc_or_desc (value : string) :
  (ControlPanel._normalize_direction value = "asc"%string
   \/ ControlPanel._normalize_direction value = "desc"%string)
  /\ (((value = "asc"%string \/ value = "desc"%string)
       /\ ControlPanel._normalize_direction value = value)
      \/ (value <> "asc"%string /\ value <> "desc"%string
          /\ ControlPanel._normalize_direction value = "desc"%string))
  /\ ControlPanel._normalize_direction (ControlPanel._normalize_direction value)
     = ControlPanel._normalize_direction value.
Proof.
  unfold ControlPanel._normalize_direction.
  destruct (String.eqb_spec value "asc") as [->|Ha]; simpl.
  - split; [auto|]. split; [left; auto | reflexivity].
  - destruct (String.eqb_spec value "desc") as [->|Hd]; simpl.
    + split; [auto|]. split; [left; auto | reflexivity].
    + split; [auto|]. split; [right; auto | reflexivity].
Qed.

Lemma filters_of_form_normalised (form : gmap string string) :
  exists f,
    ControlPanel.filters_of_form form = Ok f
    /\ 1 <= ControlPanel.limit f <= 250
    /\ ControlPanel.sort f
       = ControlPanel._normalize_sort (ControlPanel.form_get form "sort" "RANKING")
    /\ ControlPanel.direction f
       = ControlPanel._normalize_direction (ControlPanel.form_get form "direction" "desc").
Proof.
  unfold ControlPanel.filters_of_form. rewrite normalize_limit_value.
  destruct (int (Some (ControlPanel.form_get form "limit" "50"))) as [k|e]; simpl;
    eexists; (split; [reflexivity|]); simpl; (split; [lia|]); split; reflexivity.
Qed.

(** X3. Whatever fields a form holds, the filters the routes build from
    it are normalised (a limit from 1 to 250, a sort key of
    [SORT_OPTIONS], the direction [asc] or [desc]) and the URL built
    from them is the default URL, for RANKING, or the default URL
    followed by [&sort=<param>%2C<direction>] with the parameter of the
    key: the submitted text itself never reaches the URL. *)
Theorem submitted_form_gives_canonical_url (form : gmap string string) :
  exists f,
    ControlPanel.filters_of_form form = Ok f
    /\ 1 <= ControlPanel.limit f <= 250
    /\ is_Some (ControlPanel.SORT_OPTIONS !! ControlPanel.sort f)
    /\ (ControlPanel.direction f = "asc"%string
        \/ ControlPanel.direction f = "desc"%string)
    /\ ((ControlPanel.sort f = "RANKING"%string
         /\ ControlPanel.build_chart_url f = ControlPanel.DEFAULT_CHART_URL)
        \/ exists param,
            ControlPanel.SORT_PARAM_VALUES !! ControlPanel.sort f = Some param
            /\ ControlPanel.build_chart_url f
               = ControlPanel.DEFAULT_CHART_URL +:+ "&sort=" +:+ param +:+ "%2C"
                   +:+ ControlPanel.direction f).
Proof.
  destruct (filters_of_form_normalised form) as (f & Hf & Hl & Hs & Hd).
  exists f. split; [exact Hf|]. split; [exact Hl|].
  split; [rewrite Hs; apply normalize_sort_key|].
  split.
  { rewrite Hd. unfold ControlPanel._normalize_direction.
    destruct (String.eqb_spec (ControlPanel.form_get form "direction" "desc") "asc")
      as [->|_]; simpl; [auto|].
    destruct (String.eqb_spec (ControlPanel.form_get form "direction" "desc") "desc")
      as [->|_]; simpl; auto. }
  destruct (normalized_sort_is_mapped (ControlPanel.form_get form "sort" "RANKING"))
    as [H|[param H]]; rewrite <- Hs in H.
  - left. split; [exact H|]. unfold ControlPanel.build_chart_url. rewrite H.
    reflexivity.
  - right. exists param. split; [exact H|].
    destruct (sort_param_nonempty _ _ H) as [Hk Hp].
    unfold ControlPanel.build_chart_url. rewrite H.
    destruct (String.eqb_spec (ControlPanel.sort f) "RANKING"); [contradiction|].
    destruct (String.eqb_spec param EmptyString); [contradiction|]. reflexivity.
Qed.

(** X4. On normalised filters the built URL tells the sort apart: two
    filters with the same URL have the same sort key and, unless that key
    is RANKING, the same direction. *)
Theorem chart_url_determines_sort (f1 f2 : ControlPanel.ChartFilters) :
  is_Some (ControlPanel.SORT_OPTIONS !! ControlPanel.sort f1) ->
  is_Some (ControlPanel.SORT_OPTIONS !! ControlPanel.sort f2) ->
  ControlPanel.direction f1 = "asc"%string \/ ControlPanel.direction f1 = "desc"%string ->
  ControlPanel.direction f2 = "asc"%string \/ ControlPanel.direction f2 = "desc"%string ->
  ControlPanel.build_chart_url f1 = ControlPanel.build_chart_url f2 ->
  ControlPanel.sort f1 = ControlPanel.sort f2
  /\ (ControlPanel.sort f1 = "RANKING"%string
      \/ ControlPanel.direction f1 = ControlPanel.direction f2).
Proof.
  destruct f1 as [l1 s1 d1], f2 as [l2 s2 d2]. simpl.
  intros H1 H2 D1 D2 E.
  apply String.eqb_eq in E.
  apply sort_options_keys in H1, H2.
  repeat (apply elem_of_cons in H1; destruct H1 as [->|H1]);
    try (by apply elem_of_nil in H1);
    repeat (apply elem_of_cons in H2; destruct H2 as [->|H2]);
    try (by apply elem_of_nil in H2);
    destruct D1 as [-> | ->]; destruct D2 as [-> | ->];
    first [ split; [reflexivity | auto; fail] | vm_compute in E; discriminate E ].
Qed.

Lemma chart_url_determines_sort_witness :
  ControlPanel.sort (Samples.rating_asc 10) = ControlPanel.sort (Samples.rating_asc 250)
  /\ (ControlPanel.sort (Samples.rating_asc 10) = "RANKING"%string
      \/ ControlPanel.direction (Samples.rating_asc 10)
         = ControlPanel.direction (Samples.rating_asc 250)).
Proof.
  apply (chart_url_determines_sort (Samples.rating_asc 10) (Samples.rating_asc 250)).
  - vm_compute. eauto.
  - vm_compute. eauto.
  - left. reflexivity.
  - left. reflexivity.
  - reflexivity.
Defined.

(** ** The rank index of a page *)

Lemma rank_index_loop_size (matches : list (string * string)) :
  forall m index : gmap string Z,
    ControlPanel.rank_index_loop matches m = Ok index ->
    (size index <= size m + length matches)%nat.
Proof.
  induction matches as [|[t ds] rest IH]; intros m index;
    cbn [ControlPanel.rank_index_loop length].
  - intros [= <-]. lia.
  - destruct (m !! t) eqn:E.
    + intros H. specialize (IH _ _ H). lia.
    + destruct (int_of_digits_cases ds) as [[Ei _] | [Ei _]]; rewrite Ei; cbn [bind];
        [discriminate|].
      intros H. specialize (IH _ _ H).
      rewrite map_size_insert_None in IH by exact E. lia.
Qed.

Lemma rank_index_readable (html : string) (index : gmap string Z) :
  ControlPanel.rank_index html = Ok index ->
  Spec.anchors_readable (findall match_anchor html).
Proof.
  intros Hi t ds Hf.
  destruct (Nat.le_gt_cases (String.length ds) max_str_digits) as [H|H]; [exact H|].
  assert (Hr : ControlPanel.rank_index html = Raise ValueError).
  { apply rank_index_loop_raises. split; [reflexivity|].
    exists t, ds. split; [exact Hf|]. split; [apply lookup_empty | exact H]. }
  congruence.
Qed.

Lemma rank_index_raises (html : string) (e : exn) :
  ControlPanel.rank_index html = Raise e
  <-> e = ValueError
      /\ exists t ds, Spec.first_anchor (findall match_anchor html) t ds
                      /\ (max_str_digits < String.length ds)%nat.
Proof.
  unfold ControlPanel.rank_index. rewrite rank_index_loop_raises. split.
  - intros (-> & t & ds & Hf & _ & Hl). eauto.
  - intros (-> & t & ds & Hf & Hl). split; [reflexivity|].
    exists t, ds. split; [exact Hf|]. split; [apply lookup_empty | exact Hl].
Qed.

(** X5. The rank loop of the Flask parser raises exactly when the first
    anchor of some identifier carries more than 4300 digits, and then a
    [ValueError].  When it returns, the index has an entry exactly for
    the identifiers of the page's anchors; every rank is the number of the
    first anchor of its identifier and is not negative; every key is [tt]
    followed by digits; and the index has no more entries than the page
    has anchors. *)
Theorem rank_index_keys_are_anchor_identifiers (html : string) :
  (forall e : exn,
      ControlPanel.rank_index html = Raise e
      <-> e = ValueError
          /\ exists t ds, Spec.first_anchor (findall match_anchor html) t ds
                          /\ (max_str_digits < String.length ds)%nat)
  /\ (forall index : gmap string Z,
        ControlPanel.rank_index html = Ok index ->
        (forall t : string,
            is_Some (index !! t) <-> t ∈ (findall match_anchor html).*1)
        /\ (forall (t : string) (r : Z),
              index !! t = Some r ->
              0 <= r
              /\ (exists ds, Spec.first_anchor (findall match_anchor html) t ds
                             /\ r = digits_value ds)
              /\ exists ids, t = "tt" +:+ ids /\ ids <> EmptyString
                             /\ Spec.all_digits ids = true)
        /\ (size index <= length (findall match_anchor html))%nat).
Proof.
  split; [apply rank_index_raises|]. intros index Hi. split; [|split].
  - intros t. split.
    + intros [r Hr]. apply (rank_index_origin _ _ _ _ Hi) in Hr as (ds & Hf & _).
      apply first_anchor_elem in Hf.
      apply list_elem_of_fmap. exists (t, ds). auto.
    + intros Ht. destruct (first_anchor_exists _ _ Ht) as [ds Hf].
      exists (digits_value ds). apply (rank_index_origin _ _ _ _ Hi). eauto.
  - intros t r Hr. apply (rank_index_origin _ _ _ _ Hi) in Hr as (ds & Hf & ->).
    destruct (anchor_found _ _ _ (first_anchor_elem _ _ _ Hf)) as [Hds Hids].
    split; [by apply digits_value_nonneg|]. split; [eauto | exact Hids].
  - pose proof (rank_index_loop_size _ _ _ Hi) as H.
    rewrite map_size_empty in H. exact H.
Qed.

(** On the page that links one film twice the index has one entry, with
    the number of the first link. *)
Lemma rank_index_keys_are_anchor_identifiers_witness :
  (forall (t : string) (r : Z),
      ({["tt0111161"%string := 1]} : gmap string Z) !! t = Some r ->
      0 <= r
      /\ (exists ds,
            Spec.first_anchor (findall match_anchor Samples.twice_linked_page) t ds
            /\ r = digits_value ds)
      /\ exists ids, t = "tt" +:+ ids /\ ids <> EmptyString
                     /\ Spec.all_digits ids = true)
  /\ (size ({["tt0111161"%string := 1%Z]} : gmap string Z)
      <= length (findall match_anchor Samples.twice_linked_page))%nat.
Proof.
  refine (proj2 (proj2 (rank_index_keys_are_anchor_identifiers
                          Samples.twice_linked_page) {["tt0111161"%string := 1]} _)).
  vm_compute. reflexivity.
Defined.

(** ** The spider beside the Flask parser *)

Lemma spider_rank_index_loop_nodup (hrefs : list string) :
  forall m : gmap string Z,
    NoDup (omap (search match_anchor) hrefs).*1 ->
    (forall t, t ∈ (omap (search match_anchor) hrefs).*1 -> m !! t = None) ->
    Spider.rank_index_loop hrefs m
    = ControlPanel.rank_index_loop (omap (search match_anchor) hrefs) m.
Proof.
  induction hrefs as [|h rest IH]; intros m Hnd Hm; simpl; [reflexivity|].
  simpl in Hnd, Hm.
  destruct (search match_anchor h) as [[t ds]|]; simpl in *; [|by apply IH].
  apply NoDup_cons in Hnd as [Hnotin Hnd].
  rewrite (Hm t) by (apply elem_of_cons; auto).
  destruct (int_of_digits_cases ds) as [[Ei _] | [Ei _]]; rewrite Ei; cbn [bind];
    [reflexivity|].
  apply IH; [exact Hnd|].
  intros t' Ht'. rewrite lookup_insert_ne by (intros ->; contradiction).
  apply Hm. apply elem_of_cons; auto.
Qed.

(** X6. When no identifier is linked twice, the spider's loop has the
    outcome of the Flask parser's loop on the same matches, the index or
    the exception: the two loops differ on repeated identifiers only. *)
Theorem spider_index_agrees_without_repeats (response : Spider.Response) :
  NoDup (omap (search match_anchor) (Spider.hrefs response)).*1 ->
  Spider.rank_index response
  = ControlPanel.rank_index_loop
      (omap (search match_anchor) (Spider.hrefs response)) ∅.
Proof.
  intros H. unfold Spider.rank_index.
  apply spider_rank_index_loop_nodup; [exact H|].
  intros t _. apply lookup_empty.
Qed.

Lemma spider_index_agrees_without_repeats_witness :
  Spider.rank_index Samples.three_film_response
  = ControlPanel.rank_index_loop
      (omap (search match_anchor) (Spider.hrefs Samples.three_film_response)) ∅.
Proof.
  apply (spider_index_agrees_without_repeats Samples.three_film_response).
  apply (bool_decide_unpack _). vm_compute. exact I.
Defined.

Lemma merge_loop_yield_loop (index : gmap string Z) (elements : list json) :
  forall (i : Z) (results : list MovieRecord),
    ControlPanel.merge_loop index i elements results
    = results ++ Spider.yield_loop index i elements.
Proof.
  induction elements as [|e rest IH]; intros i results; simpl.
  - by rewrite app_nil_r.
  - rewrite IH.
    destruct e as [| | | | | |d]; simpl; try reflexivity.
    destruct (get d "item") as [| | | | | |item]; simpl; try reflexivity.
    rewrite <- app_assoc. reflexivity.
Qed.

(** X7. The spider yields the records the Flask parser returns, and
    raises when it raises, whenever the two rank loops had the same
    outcome and the two scans of the blocks had the same outcome. *)
Theorem spider_yields_what_flask_returns (loads : string -> outcome)
    (response : Spider.Response) (html : string) :
  Spider.rank_index response = ControlPanel.rank_index html ->
  Spider.select_item_list loads (Spider.ld_json_texts response)
  = ControlPanel.select_item_list loads (ControlPanel.ldjson_scripts html) ->
  Spider.parse loads response = ControlPanel.parse_top250_from_html loads html.
Proof.
  intros Hi Hs. unfold Spider.parse, ControlPanel.parse_top250_from_html.
  rewrite Hi, Hs.
  destruct (ControlPanel.rank_index html) as [index|e]; [|reflexivity]. cbn [bind].
  destruct (ControlPanel.select_item_list loads (ControlPanel.ldjson_scripts html))
    as [[[|kv data]|]|e]; try reflexivity.
  cbn [bind].
  destruct (iterate (item_list_element (kv :: data))); simpl; [|reflexivity].
  rewrite merge_loop_yield_loop. reflexivity.
Qed.

Lemma spider_yields_what_flask_returns_witness :
  Spider.parse Json.loads Samples.three_film_response
  = ControlPanel.parse_top250_from_html Json.loads Samples.three_film_page.
Proof.
  apply (spider_yields_what_flask_returns Json.loads
           Samples.three_film_response Samples.three_film_page).
  - vm_compute. reflexivity.
  - vm_compute. reflexivity.
Defined.

(** ** The parser on malformed and on unlinked pages *)

Lemma iterate_raises (v : json) (e : exn) :
  iterate v = Raise e
  <-> e = TypeError
      /\ (v = JNull \/ (exists b, v = JBool b) \/ (exists n, v = JInt n)
          \/ (exists lit, v = JFloat lit)).
Proof.
  split.
  - destruct v; simpl; try discriminate; intros [= <-]; split; eauto 6.
  - intros (-> & [->|[[b ->]|[[n ->]|[lit ->]]]]); reflexivity.
Qed.

(** X8. [parse_top250_from_html] raises on three paths and on no other.
    It raises a [ValueError] when the first anchor of some identifier
    carries more than 4300 digits.  Otherwise it raises the decoder's
    [RecursionError] or [ValueError] when the decoder raises one on a
    block that follows only blocks passed over.  Otherwise it raises a
    [TypeError] when the block it selected has, under [itemListElement],
    [null], a boolean or a number.  A string or a dict there is iterated
    and gives no record. *)
Theorem parser_raising_paths (loads : string -> outcome) (html : string) (e : exn) :
  ControlPanel.parse_top250_from_html loads html = Raise e
  <-> (e = ValueError
       /\ exists t ds, Spec.first_anchor (findall match_anchor html) t ds
                       /\ (max_str_digits < String.length ds)%nat)
      \/ (Spec.anchors_readable (findall match_anchor html)
          /\ exists before block after,
              ControlPanel.ldjson_scripts html = before ++ block :: after
              /\ Forall (Spec.passed_over (fun raw => loads (strip raw))) before
              /\ ((exists c, loads (strip block) = Crash c /\ e = crash_exn c)
                  \/ (exists data v,
                        loads (strip block) = Decoded (JObj data)
                        /\ is_item_list (JObj data) = true
                        /\ lookup_key "itemListElement" data = Some v
                        /\ (v = JNull \/ (exists b, v = JBool b)
                            \/ (exists n, v = JInt n)
                            \/ (exists lit, v = JFloat lit))
                        /\ e = TypeError))).
Proof.
  rewrite parse_of_selected, flask_select_as_spider. split.
  - destruct (ControlPanel.rank_index html) as [index|e'] eqn:Ei; cbn [bind].
    + intros H. right. split; [exact (rank_index_readable _ _ Ei)|].
      destruct (Spider.select_item_list (fun raw => loads (strip raw))
                  (ControlPanel.ldjson_scripts html)) as [[data|]|e'] eqn:Es;
        cbn [bind] in H; [|discriminate|].
      * apply select_some in Es as (before & block & after & Heq & Hall & Hd & Hq).
        exists before, block, after. split; [exact Heq|]. split; [exact Hall|].
        right. destruct (lookup_key "itemListElement" data) as [v|] eqn:Hv;
          [|discriminate].
        destruct (iterate v) as [elements|e'] eqn:Hit; cbn [bind] in H;
          [discriminate|].
        injection H as <-. apply iterate_raises in Hit as [-> Hscalar].
        exists data, v. auto.
      * injection H as <-.
        apply select_raises in Es as (before & block & after & c & Heq & Hall & Hc & ->).
        exists before, block, after. split; [exact Heq|]. split; [exact Hall|].
        left. eauto.
    + intros [= <-]. left. by apply rank_index_raises.
  - intros [Hlong | (Hread & before & block & after & Heq & Hall & Hend)].
    + apply rank_index_raises in Hlong. rewrite Hlong. reflexivity.
    + destruct (rank_index_returns html Hread) as [index ->]. cbn [bind].
      destruct Hend as [(c & Hc & ->) | (data & v & Hd & Hq & Hv & Hscalar & ->)].
      * assert (Hs : Spider.select_item_list (fun raw => loads (strip raw))
                       (ControlPanel.ldjson_scripts html) = Raise (crash_exn c))
          by (apply select_raises; exists before, block, after, c; auto).
        rewrite Hs. reflexivity.
      * assert (Hs : Spider.select_item_list (fun raw => loads (strip raw))
                       (ControlPanel.ldjson_scripts html) = Ok (Some data))
          by (apply select_some; exists before, block, after; auto).
        rewrite Hs. cbn [bind]. rewrite Hv.
        assert (Hit : iterate v = Raise TypeError) by (apply iterate_raises; auto).
        rewrite Hit. reflexivity.
Qed.

Lemma parser_raising_paths_witness :
  ControlPanel.parse_top250_from_html Json.loads Samples.long_anchor_page
  = Raise ValueError.
Proof.
  apply (proj2 (parser_raising_paths Json.loads Samples.long_anchor_page ValueError)).
  left. split; [reflexivity|].
  exists "tt0111161"%string, (Samples.nines 4301). split.
  - exists [], []. split; [vm_compute; reflexivity | apply not_elem_of_nil].
  - apply Nat.ltb_lt. vm_compute. reflexivity.
Defined.

Lemma merger_from_cons (index : gmap string Z) (start : Z) (e : json)
    (rest : list json) :
  Closed.merger_from index start (e :: rest)
  = match Spec.valid_item e with
    | Some item =>
        Closed.record index start item :: Closed.merger_from index (start + 1) rest
    | None => Closed.merger_from index (start + 1) rest
    end.
Proof.
  unfold Closed.merger_from. simpl. destruct (Spec.valid_item e); reflexivity.
Qed.

Lemma unindexed_rank (start : Z) (item : dict) :
  Closed.resolve_rank ∅ start item = start.
Proof.
  unfold Closed.resolve_rank.
  destruct (tconst_of (get item "url")); [rewrite lookup_empty|]; reflexivity.
Qed.

Lemma enumerated_ranks_increase (elements : list json) :
  forall start : Z,
    StronglySorted Z.lt (Spec.rank_value <$> Closed.merger_from ∅ start elements)
    /\ Forall (fun z => start <= z)
              (Spec.rank_value <$> Closed.merger_from ∅ start elements).
Proof.
  induction elements as [|e rest IH]; intros start.
  - split; constructor.
  - destruct (IH (start + 1)) as [Hs Hf]. rewrite merger_from_cons.
    destruct (Spec.valid_item e) as [item|].
    + assert (Hr : Spec.rank_value (Closed.record ∅ start item) = start)
        by (unfold Spec.rank_value; simpl; apply unindexed_rank).
      rewrite fmap_cons, Hr. split.
      * constructor; [exact Hs|]. eapply Forall_impl; [exact Hf|]. simpl. lia.
      * constructor; [lia|]. eapply Forall_impl; [exact Hf|]. simpl. lia.
    + split; [exact Hs|]. eapply Forall_impl; [exact Hf|]. simpl. lia.
Qed.

Lemma enumerated_ranks_are_positions (l : list (Z * json)) :
  Forall2 (fun p r => rank r = JInt (fst p) /\ Spec.emits ∅ p r)
    (omap (fun p => item ← Spec.valid_item (snd p); Some (fst p, item)) l)
    (omap (fun p => item ← Spec.valid_item (snd p);
                    Some (Closed.record ∅ (fst p) item)) l).
Proof.
  induction l as [|[i e] l IH]; simpl; [constructor|].
  destruct (Spec.valid_item e) as [item|]; simpl; [|exact IH].
  constructor; [|exact IH]. split; [|by apply emits_closed].
  simpl. by rewrite unindexed_rank.
Qed.

(** X9. On a page without any chart anchor every record gets as rank the
    position of its element in the item list: the returned records are
    those of the valid elements of the selected block (of no element when
    no block is selected), in order, each with the 1-based position of its
    element as rank and the fields of its item; so the ranks are at least
    1 and strictly increase along the list. *)
Theorem unlinked_page_ranks_are_positions (loads : string -> outcome)
    (html : string) (recs : list MovieRecord) :
  findall match_anchor html = [] ->
  ControlPanel.parse_top250_from_html loads html = Ok recs ->
  (exists elements,
      match ControlPanel.select_item_list loads (ControlPanel.ldjson_scripts html) with
      | Ok (Some data) => iterate (item_list_element data) = Ok elements
      | _ => elements = []
      end
      /\ Forall2 (fun p r => rank r = JInt (fst p) /\ Spec.emits ∅ p r)
           (Spec.valid_items elements) recs)
  /\ Forall (fun r => rank r = JInt (Spec.rank_value r) /\ 1 <= Spec.rank_value r) recs
  /\ StronglySorted Z.lt (Spec.rank_value <$> recs).
Proof.
  intros Hno Hp.
  assert (Hidx : ControlPanel.rank_index html = Ok ∅)
    by (unfold ControlPanel.rank_index; rewrite Hno; reflexivity).
  assert (Hel : exists elements,
             match ControlPanel.select_item_list loads
                     (ControlPanel.ldjson_scripts html) with
             | Ok (Some data) => iterate (item_list_element data) = Ok elements
             | _ => elements = []
             end
             /\ recs = Closed.merger ∅ elements).
  { rewrite parse_of_selected, Hidx in Hp. cbn [bind] in Hp.
    destruct (ControlPanel.select_item_list loads (ControlPanel.ldjson_scripts html))
      as [[data|]|e]; cbn [bind] in Hp; [| |discriminate].
    - unfold item_list_element.
      destruct (lookup_key "itemListElement" data) as [v|];
        unfold default; cbn [from_option id].
      + destruct (iterate v) as [elements|e]; cbn [bind] in Hp; [|discriminate].
        injection Hp as <-. eauto.
      + injection Hp as <-. exists []. split; reflexivity.
    - injection Hp as <-. exists []. split; reflexivity. }
  destruct Hel as (elements & Hel & ->).
  destruct (enumerated_ranks_increase elements 1) as [Hs Hf].
  change (Closed.merger_from ∅ 1 elements) with (Closed.merger ∅ elements) in Hs, Hf.
  split; [|split; [|exact Hs]].
  - exists elements. split; [exact Hel|]. apply enumerated_ranks_are_positions.
  - apply (proj1 (Forall_fmap _ _ _)) in Hf. apply Forall_forall. intros r Hr.
    split; [|exact (proj1 (Forall_forall _ _) Hf r Hr)].
    apply merger_record in Hr as (i & item & _ & ->). reflexivity.
Qed.

(** The second element of the sample list is no dict: the records have
    the ranks 1, 3 and 4. *)
Lemma unlinked_page_ranks_are_positions_witness :
  exists recs,
    ControlPanel.parse_top250_from_html Json.loads Samples.unlinked_page = Ok recs
    /\ Spec.rank_value <$> recs = [1; 3; 4]
    /\ (exists elements,
          match ControlPanel.select_item_list Json.loads
                  (ControlPanel.ldjson_scripts Samples.unlinked_page) with
          | Ok (Some data) => iterate (item_list_element data) = Ok elements
          | _ => elements = []
          end
          /\ Forall2 (fun p r => rank r = JInt (fst p) /\ Spec.emits ∅ p r)
               (Spec.valid_items elements) recs)
    /\ Forall (fun r => rank r = JInt (Spec.rank_value r) /\ 1 <= Spec.rank_value r) recs
    /\ StronglySorted Z.lt (Spec.rank_value <$> recs).
Proof.
  eexists. split; [vm_compute; reflexivity|]. split; [reflexivity|].
  eapply (unlinked_page_ranks_are_positions Json.loads Samples.unlinked_page).
  - vm_compute. reflexivity.
  - vm_compute. reflexivity.
Defined.

(** ** From an anchor to the rank of a record *)

Lemma tconst_of_title_url (base ids tail : string) :
  base = EmptyString \/ base = "https://www.imdb.com"%string ->
  ids <> EmptyString -> Spec.all_digits ids = true ->
  tconst_of (JStr (base +:+ "/title/tt" +:+ ids +:+ "/" +:+ tail))
  = Some ("tt" +:+ ids).
Proof.
  intros Hb Hne Hds. pose proof (match_tconst_of_title_path ids tail Hne Hds) as Hm.
  unfold tconst_of. set (path := "/title/tt" +:+ ids +:+ "/" +:+ tail) in *.
  destruct Hb as [-> | ->].
  - exact (search_here _ _ _ _ Hm).
  - cbn [String.append].
    repeat (rewrite search_skip by reflexivity).
    exact (search_here _ _ _ _ Hm).
Qed.

(** X10. The two extractions meet: when the rank loop returns an index
    and the first anchor of an identifier on the page carries the digits
    [rs], an item whose url is the title path of that identifier (alone or
    after [https://www.imdb.com], whatever follows the closing slash)
    gets the number [rs] writes as rank, at every position of the list. *)
Theorem anchor_rank_reaches_record (html : string) (index : gmap string Z)
    (pre post : list (string * string)) (ids rs base tail : string)
    (item : dict) (i : Z) :
  ControlPanel.rank_index html = Ok index ->
  findall match_anchor html = pre ++ ("tt" +:+ ids, rs) :: post ->
  "tt" +:+ ids ∉ pre.*1 ->
  base = EmptyString \/ base = "https://www.imdb.com"%string ->
  get item "url" = JStr (base +:+ "/title/tt" +:+ ids +:+ "/" +:+ tail) ->
  rank (record_of index i item) = JInt (digits_value rs).
Proof.
  intros Hi Hfind Hpre Hbase Hurl.
  assert (Hin : ("tt" +:+ ids, rs) ∈ findall match_anchor html).
  { rewrite Hfind. apply elem_of_app. right. apply elem_of_cons. auto. }
  destruct (anchor_found _ _ _ Hin) as (_ & ids' & Heq & Hne & Hds).
  injection Heq as Heq. change (ids = ids') in Heq. subst ids'.
  rewrite record_of_spec. simpl. unfold Closed.resolve_rank.
  rewrite Hurl, (tconst_of_title_url base ids tail Hbase Hne Hds).
  rewrite (flask_rank_index_first_wins html index pre post _ rs Hi Hfind Hpre).
  reflexivity.
Qed.

Lemma anchor_rank_reaches_record_witness :
  rank (record_of {["tt0111161"%string := 1]} 5
          [ ("url"%string, JStr "https://www.imdb.com/title/tt0111161/") ])
  = JInt (digits_value "1").
Proof.
  apply (anchor_rank_reaches_record Samples.twice_linked_page
           {["tt0111161"%string := 1]} []
           [("tt0111161", "7")]%string "0111161" "1" "https://www.imdb.com" ""
           [ ("url"%string, JStr "https://www.imdb.com/title/tt0111161/") ] 5).
  - vm_compute. reflexivity.
  - vm_compute. reflexivity.
  - apply not_elem_of_nil.
  - right. reflexivity.
  - reflexivity.
Defined.

(** ** The script blocks *)

Lemma strip_prefix_ci_app (p x y t : string) :
  strip_prefix_ci p x = Some y -> strip_prefix_ci p (x +:+ t) = Some (y +:+ t).
Proof.
  revert x. induction p as [|a p IH]; intros x; simpl.
  - intros [= ->]. reflexivity.
  - destruct x as [|b x]; [discriminate|]. simpl.
    destruct (Ascii.eqb (lower a) (lower b)); [apply IH|discriminate].
Qed.

Lemma until_ci_split (p s b r : string) :
  until_ci p s = Some (b, r) -> exists m, s = b +:+ m.
Proof.
  revert b r. induction s as [|c s IH]; intros b r; simpl.
  - destruct (strip_prefix_ci p EmptyString); [|discriminate].
    intros [= <- _]. exists EmptyString. reflexivity.
  - destruct (strip_prefix_ci p (String c s)).
    + intros [= <- _]. exists (String c s). reflexivity.
    + destruct (until_ci p s) as [[b' r']|] eqn:E; [|discriminate].
      simpl. intros [= <- <-]. destruct (IH b' r' eq_refl) as [m ->].
      exists m. reflexivity.
Qed.

Lemma until_ci_body_has_no_match (p s b r : string) :
  p <> EmptyString -> until_ci p s = Some (b, r) -> contains_ci p b = false.
Proof.
  intros Hp. revert b r. induction s as [|c s IH]; intros b r; simpl.
  - destruct p; [contradiction|]. discriminate.
  - destruct (strip_prefix_ci p (String c s)) as [r0|] eqn:E0.
    + intros [= <- _]. destruct p; [contradiction|]. reflexivity.
    + destruct (until_ci p s) as [[b' r']|] eqn:E; [|discriminate].
      simpl. intros [= <- <-].
      destruct (until_ci_split _ _ _ _ E) as [m Hm].
      simpl. destruct (strip_prefix_ci p (String c b')) as [y|] eqn:Ey.
      * apply (strip_prefix_ci_app _ _ _ m) in Ey.
        change (String c b' +:+ m) with (String c (b' +:+ m)) in Ey.
        rewrite <- Hm in Ey. congruence.
      * by apply (IH b' r').
Qed.

Lemma match_script_body (s b r : string) :
  match_script s = Some (b, r) -> contains_ci "</script>" b = false.
Proof.
  unfold match_script. intros H.
  destruct (strip_prefix_ci "<script" s) as [r0|]; [|discriminate].
  cbn [mbind option_bind] in H.
  destruct (split_gt r0) as [[tag after]|]; [|discriminate].
  cbn [mbind option_bind] in H.
  destruct (contains_ci ldjson_type tag); [|discriminate].
  by apply (until_ci_body_has_no_match "</script>" after b r).
Qed.

(** X11. No script block handed to the decoder holds a closing script
    tag, in any letter case: a block ends at the first [</script>] after
    its opening tag. *)
Theorem script_blocks_hold_no_closing_tag (html block : string) :
  block ∈ ControlPanel.ldjson_scripts html ->
  contains_ci "</script>" block = false.
Proof.
  intros H. destruct (findall_from_found _ _ _ _ H) as (s' & r & Hm).
  exact (match_script_body _ _ _ Hm).
Qed.

Lemma script_blocks_hold_no_closing_tag_witness :
  contains_ci "</script>" Samples.one_film_block = false.
Proof.
  apply (script_blocks_hold_no_closing_tag Samples.twice_linked_page).
  vm_compute. apply list_elem_of_singleton. reflexivity.
Defined.

(** ** The requests and the result of an invocation *)

(** X12. Every request of an invocation goes to the URL built from the
    filters, with the timeout 30 and with the browser headers, the
    Accept-Language apart; a returned result reports that URL and echoes
    the filters. *)
Theorem requests_go_to_the_reported_url (loads : string -> outcome)
    (net : ControlPanel.network) (f : ControlPanel.ChartFilters)
    (trace : list ControlPanel.Request) :
  exists sent,
    (ControlPanel.fetch_chart loads net f trace).2 = trace ++ sent
    /\ Forall (fun rq =>
                 ControlPanel.req_url rq = ControlPanel.build_chart_url f
                 /\ ControlPanel.req_timeout rq = 30
                 /\ forall k : string,
                     k <> "Accept-Language"%string ->
                     ControlPanel.req_headers rq !! k
                     = ControlPanel.browser_headers !! k) sent
    /\ forall res,
        (ControlPanel.fetch_chart loads net f trace).1 = Ok res ->
        ControlPanel.url res = ControlPanel.build_chart_url f
        /\ ControlPanel.filters res = f.
Proof.
  rewrite fetch_chart_run. cbn [fst snd].
  exists (Spec.requests_sent net trace f). split; [reflexivity|]. split.
  - assert (H1 : ControlPanel.req_url (Spec.first_request f)
                 = ControlPanel.build_chart_url f
                 /\ ControlPanel.req_timeout (Spec.first_request f) = 30
                 /\ forall k : string,
                     k <> "Accept-Language"%string ->
                     ControlPanel.req_headers (Spec.first_request f) !! k
                     = ControlPanel.browser_headers !! k)
      by (repeat split).
    assert (H2 : ControlPanel.req_url (Spec.retry_request f)
                 = ControlPanel.build_chart_url f
                 /\ ControlPanel.req_timeout (Spec.retry_request f) = 30
                 /\ forall k : string,
                     k <> "Accept-Language"%string ->
                     ControlPanel.req_headers (Spec.retry_request f) !! k
                     = ControlPanel.browser_headers !! k).
    { repeat split. intros k Hk. simpl. apply lookup_insert_ne. congruence. }
    destruct (requests_sent_cases net trace f) as [[-> _]|[-> _]].
    + constructor; [exact H1|]. constructor; [exact H2|]. constructor.
    + constructor; [exact H1|]. constructor.
  - intros res.
    destruct (Spec.final_response net trace f) as [resp|]; [|discriminate].
    destruct (ControlPanel.raise_for_status resp); [|discriminate]. simpl.
    destruct (ControlPanel.parse_top250_from_html loads (ControlPanel.text resp));
      [|discriminate].
    simpl. intros [= <-]. split; reflexivity.
Qed.

Lemma fetch_chart_returns (loads : string -> outcome)
    (net : ControlPanel.network) (f : ControlPanel.ChartFilters)
    (trace : list ControlPanel.Request) (res : ControlPanel.FetchResult) :
  (ControlPanel.fetch_chart loads net f trace).1 = Ok res ->
  exists resp parsed,
    Spec.final_response net trace f = Some resp
    /\ ControlPanel.raise_for_status resp = Ok tt
    /\ ControlPanel.parse_top250_from_html loads (ControlPanel.text resp) = Ok parsed
    /\ res = {| ControlPanel.url := ControlPanel.build_chart_url f;
                ControlPanel.filters := f;
                ControlPanel.diagnostics := Spec.diagnostics_of resp;
                ControlPanel.count :=
                  Z.min (ControlPanel.limit f) (Z.of_nat (length parsed));
                ControlPanel.movies := slice_to parsed (ControlPanel.limit f) |}.
Proof.
  rewrite fetch_chart_run. simpl.
  destruct (Spec.final_response net trace f) as [resp|]; [|discriminate].
  destruct (ControlPanel.raise_for_status resp) as [[]|] eqn:Hs; [|discriminate].
  simpl.
  destruct (ControlPanel.parse_top250_from_html loads (ControlPanel.text resp))
    as [parsed|] eqn:Hp; [|discriminate].
  simpl. intros [= <-]. exists resp, parsed. repeat split; assumption.
Qed.

(** X13. A returned result holds the records parsed from the final
    response, cut at the limit.  When the limit is not negative, [movies]
    is their first [limit] entries and [count] is its length, at most the
    limit.  When the limit is negative, [count] is that negative limit,
    while [movies] is the parsed list without its last [-limit] entries
    (empty when the list has no more than that). *)
Theorem count_is_length_unless_limit_negative (loads : string -> outcome)
    (net : ControlPanel.network) (f : ControlPanel.ChartFilters)
    (trace : list ControlPanel.Request) (res : ControlPanel.FetchResult) :
  (ControlPanel.fetch_chart loads net f trace).1 = Ok res ->
  exists resp parsed,
    Spec.final_response net trace f = Some resp
    /\ ControlPanel.parse_top250_from_html loads (ControlPanel.text resp) = Ok parsed
    /\ (0 <= ControlPanel.limit f ->
        ControlPanel.movies res = take (Z.to_nat (ControlPanel.limit f)) parsed
        /\ ControlPanel.count res = Z.of_nat (length (ControlPanel.movies res))
        /\ ControlPanel.count res <= ControlPanel.limit f)
    /\ (ControlPanel.limit f < 0 ->
        ControlPanel.movies res
        = take (Z.to_nat (Z.of_nat (length parsed) + ControlPanel.limit f)) parsed
        /\ ControlPanel.count res = ControlPanel.limit f
        /\ ControlPanel.count res < Z.of_nat (length (ControlPanel.movies res))).
Proof.
  intros H. apply fetch_chart_returns in H as (resp & parsed & Hfin & _ & Hp & ->).
  exists resp, parsed. split; [exact Hfin|]. split; [exact Hp|].
  simpl. split; intros Hl.
  - rewrite slice_to_take by exact Hl. split; [reflexivity|].
    rewrite length_take. lia.
  - unfold slice_to. destruct (Z.ltb_spec (ControlPanel.limit f) 0); [|lia].
    split; [reflexivity|]. lia.
Qed.

Lemma count_is_length_unless_limit_negative_witness :
  exists res,
    (ControlPanel.fetch_chart Json.loads
       (Samples.serve [Samples.placeholder;
                       Samples.ok_response Samples.three_film_page])
       (Samples.rating_asc (-1)) []).1 = Ok res
    /\ ControlPanel.count res = -1
    /\ length (ControlPanel.movies res) = 2%nat
    /\ exists resp parsed,
        Spec.final_response
          (Samples.serve [Samples.placeholder;
                          Samples.ok_response Samples.three_film_page])
          [] (Samples.rating_asc (-1)) = Some resp
        /\ ControlPanel.parse_top250_from_html Json.loads (ControlPanel.text resp)
           = Ok parsed
        /\ (0 <= -1 ->
            ControlPanel.movies res = take (Z.to_nat (-1)) parsed
            /\ ControlPanel.count res = Z.of_nat (length (ControlPanel.movies res))
            /\ ControlPanel.count res <= -1)
        /\ (-1 < 0 ->
            ControlPanel.movies res
            = take (Z.to_nat (Z.of_nat (length parsed) + -1)) parsed
            /\ ControlPanel.count res = -1
            /\ ControlPanel.count res < Z.of_nat (length (ControlPanel.movies res))).
Proof.
  eexists. split; [vm_compute; reflexivity|].
  split; [reflexivity|]. split; [reflexivity|].
  apply (count_is_length_unless_limit_negative Json.loads
           (Samples.serve [Samples.placeholder;
                           Samples.ok_response Samples.three_film_page])
           (Samples.rating_asc (-1)) []).
  vm_compute. reflexivity.
Defined.

Lemma raise_for_status_passed (resp : ControlPanel.Response) :
  ControlPanel.raise_for_status resp = Ok tt ->
  ~ (400 <= ControlPanel.status_code resp < 600).
Proof.
  intros H Hs. rewrite (raise_for_status_error _ Hs) in H. discriminate.
Qed.

Lemma slice_to_nil {A : Type} (n : Z) : slice_to (@nil A) n = [].
Proof. unfold slice_to. destruct (n <? 0); apply take_nil. Qed.

(** X14. A result that lists a movie comes from a response whose body is
    not empty and holds at least one script block, and whose status is
    outside 400..599: the diagnostics of the result say so. *)
Theorem listed_movie_shows_in_diagnostics (loads : string -> outcome)
    (net : ControlPanel.network) (f : ControlPanel.ChartFilters)
    (trace : list ControlPanel.Request) (res : ControlPanel.FetchResult) :
  (ControlPanel.fetch_chart loads net f trace).1 = Ok res ->
  ControlPanel.movies res <> [] ->
  1 <= ControlPanel.ldjson_blocks (ControlPanel.diagnostics res)
  /\ 0 < ControlPanel.html_length (ControlPanel.diagnostics res)
  /\ ~ (400 <= ControlPanel.http_status (ControlPanel.diagnostics res) < 600).
Proof.
  intros H Hm. apply fetch_chart_returns in H as (resp & parsed & _ & Hs & Hp & ->).
  simpl in *.
  assert (Hblocks : ControlPanel.ldjson_scripts (ControlPanel.text resp) <> []).
  { intros E. rewrite parse_of_selected, E in Hp.
    destruct (ControlPanel.rank_index (ControlPanel.text resp)); [|discriminate].
    simpl in Hp. inversion Hp; subst parsed. apply Hm, slice_to_nil. }
  split; [|split; [|by apply raise_for_status_passed]].
  - destruct (ControlPanel.ldjson_scripts (ControlPanel.text resp));
      [contradiction|]. simpl. lia.
  - destruct (ControlPanel.text resp) as [|c t]; [by destruct Hblocks|].
    unfold len. simpl. lia.
Qed.

Lemma listed_movie_shows_in_diagnostics_witness :
  exists res,
    (ControlPanel.fetch_chart Json.loads
       (Samples.serve [Samples.placeholder;
                       Samples.ok_response Samples.three_film_page])
       Samples.limit_two []).1 = Ok res
    /\ 1 <= ControlPanel.ldjson_blocks (ControlPanel.diagnostics res)
    /\ 0 < ControlPanel.html_length (ControlPanel.diagnostics res)
    /\ ~ (400 <= ControlPanel.http_status (ControlPanel.diagnostics res) < 600).
Proof.
  eexists. split; [vm_compute; reflexivity|].
  apply (listed_movie_shows_in_diagnostics Json.loads
           (Samples.serve [Samples.placeholder;
                           Samples.ok_response Samples.three_film_page])
           Samples.limit_two []).
  - vm_compute. reflexivity.
  - discriminate.
Defined.

(** ** The routes *)

Lemma try_fetch_chart_run (loads : string -> outcome)
    (net : ControlPanel.network) (f : ControlPanel.ChartFilters)
    (trace : list ControlPanel.Request) :
  ControlPanel.try_fetch_chart loads net f trace
  = (Ok (match (ControlPanel.fetch_chart loads net f trace).1 with
         | Ok res => (Some res, None)
         | Raise e => (None, Some e)
         end),
     (ControlPanel.fetch_chart loads net f trace).2).
Proof.
  unfold ControlPanel.try_fetch_chart.
  destruct (ControlPanel.fetch_chart loads net f trace) as [[res|e] tr]; reflexivity.
Qed.

(** X15. The routes [/] and [/preview] never raise, whatever the network
    does and whatever the form holds: they hand to the template the
    filters ([/]: 50, RANKING, desc; [/preview]: the normalised fields)
    and either the result of [fetch_chart] with no error, or no result
    and the exception [fetch_chart] raised. *)
Theorem pages_render_result_or_error (loads : string -> outcome)
    (net : ControlPanel.network) (form : gmap string string)
    (trace : list ControlPanel.Request) :
  (exists ctx,
      (ControlPanel.index loads net trace).1 = Ok ctx
      /\ ControlPanel.ctx_filters ctx = Samples.default_filters
      /\ match (ControlPanel.fetch_chart loads net Samples.default_filters trace).1 with
         | Ok res => ControlPanel.ctx_result ctx = Some res
                     /\ ControlPanel.ctx_error ctx = None
         | Raise e => ControlPanel.ctx_result ctx = None
                      /\ ControlPanel.ctx_error ctx = Some e
         end)
  /\ (exists ctx,
        (ControlPanel.preview loads net form trace).1 = Ok ctx
        /\ ControlPanel.filters_of_form form = Ok (ControlPanel.ctx_filters ctx)
        /\ match (ControlPanel.fetch_chart loads net (ControlPanel.ctx_filters ctx)
                    trace).1 with
           | Ok res => ControlPanel.ctx_result ctx = Some res
                       /\ ControlPanel.ctx_error ctx = None
           | Raise e => ControlPanel.ctx_result ctx = None
                        /\ ControlPanel.ctx_error ctx = Some e
           end).
Proof.
  split.
  - unfold ControlPanel.index, mbind, ControlPanel.io_mbind, ControlPanel.io_bind.
    fold Samples.default_filters. rewrite try_fetch_chart_run.
    eexists. split; [reflexivity|]. split; [reflexivity|]. simpl.
    destruct (ControlPanel.fetch_chart loads net Samples.default_filters trace).1;
      split; reflexivity.
  - destruct (filters_of_form_normalised form) as (f & Hf & _).
    unfold ControlPanel.preview, mbind, ControlPanel.io_mbind, ControlPanel.io_bind,
      ControlPanel.lift.
    rewrite Hf, try_fetch_chart_run.
    eexists. split; [reflexivity|]. split; [reflexivity|]. simpl.
    destruct (ControlPanel.fetch_chart loads net f trace).1; split; reflexivity.
Qed.

(** X16. The routes [/download.json] and [/api/movies] have no handler:
    they raise what [fetch_chart] raises on the normalised fields;
    otherwise [/api/movies] serialises the result of [fetch_chart] and
    [/download.json] its movies, which are at most as many as the limit
    and never more than 250, the count of the result being their
    number. *)
Theorem downloads_hold_at_most_limit_movies (loads : string -> outcome)
    (net : ControlPanel.network) (args : gmap string string)
    (trace : list ControlPanel.Request) :
  exists f,
    ControlPanel.filters_of_form args = Ok f
    /\ ControlPanel.api_movies loads net args trace
       = ControlPanel.fetch_chart loads net f trace
    /\ match (ControlPanel.fetch_chart loads net f trace).1 with
       | Ok res =>
           (ControlPanel.download_json loads net args trace).1
           = Ok (ControlPanel.movies res)
           /\ ControlPanel.count res = Z.of_nat (length (ControlPanel.movies res))
           /\ ControlPanel.count res <= ControlPanel.limit f <= 250
       | Raise e =>
           (ControlPanel.download_json loads net args trace).1 = Raise e
       end.
Proof.
  destruct (filters_of_form_normalised args) as (f & Hf & Hl & _).
  exists f. split; [exact Hf|].
  unfold ControlPanel.api_movies, ControlPanel.download_json, mbind,
    ControlPanel.io_mbind, ControlPanel.io_bind, ControlPanel.lift.
  rewrite Hf. split; [reflexivity|].
  destruct (ControlPanel.fetch_chart loads net f trace) as [[res|e] tr] eqn:E;
    simpl; [|reflexivity].
  split; [reflexivity|].
  assert (H : (ControlPanel.fetch_chart loads net f trace).1 = Ok res)
    by (rewrite E; reflexivity).
  apply fetch_chart_returns in H as (resp & parsed & _ & _ & _ & ->). simpl.
  rewrite slice_to_take by lia. rewrite length_take. lia.
Qed.

(** ** A limit typed as digits *)

Lemma digit_is_no_c_space (c : ascii) : is_digit c = true -> is_c_space c = false.
Proof.
  unfold is_digit, is_c_space. intros H.
  apply andb_true_iff in H as [H1 H2]. apply Nat.leb_le in H1, H2.
  apply orb_false_iff. split.
  - apply andb_false_iff. right. apply Nat.leb_gt. lia.
  - apply Nat.eqb_neq. lia.
Qed.

Lemma rstrip_digits (ds : string) :
  Spec.all_digits ds = true -> rstrip_by is_c_space ds = ds.
Proof.
  induction ds as [|c ds IH]; simpl; [reflexivity|]. intros H.
  apply andb_true_iff in H as [Hc Hds]. rewrite (IH Hds).
  destruct ds; [|reflexivity]. rewrite (digit_is_no_c_space c Hc). reflexivity.
Qed.

Lemma lstrip_digits (ds : string) :
  Spec.all_digits ds = true -> lstrip_by is_c_space ds = ds.
Proof.
  destruct ds as [|c ds]; simpl; [reflexivity|]. intros H.
  apply andb_true_iff in H as [Hc _]. rewrite (digit_is_no_c_space c Hc).
  reflexivity.
Qed.

Lemma digit_is_no_sign (c : ascii) :
  is_digit c = true -> c <> "-"%char /\ c <> "+"%char.
Proof. intros H. split; intros ->; discriminate H. Qed.

Lemma int_body_digits (ds : string) :
  Spec.all_digits ds = true ->
  forall (after_digit : bool) (acc : Z) (count : nat),
    ds <> EmptyString \/ after_digit = true ->
    int_body after_digit acc count ds
    = Some (int_of_digits_from acc ds, (count + String.length ds)%nat).
Proof.
  induction ds as [|c ds IH]; simpl; intros H after_digit acc count Hne.
  - destruct Hne as [Hne | ->]; [contradiction|]. by rewrite Nat.add_0_r.
  - apply andb_true_iff in H as [Hc Hds]. rewrite Hc.
    rewrite (IH Hds) by auto. do 2 f_equal. lia.
Qed.

(** On a text of digits the general [int] is the [int] of the rank
    loops. *)
Lemma int_of_digit_text (ds : string) :
  ds <> EmptyString -> Spec.all_digits ds = true ->
  int (Some ds) = int_of_digits ds.
Proof.
  intros Hne Hds. unfold int, int_of_digits.
  rewrite (lstrip_digits ds Hds), (rstrip_digits ds Hds).
  destruct ds as [|c ds]; [contradiction|].
  assert (Hc : is_digit c = true) by (simpl in Hds; by apply andb_true_iff in Hds as [? _]).
  destruct (digit_is_no_sign c Hc) as [Hm Hp].
  assert (E : match String c ds with
              | String "-" t' => int_body false 0 0 t' ≫= (fun p => Some (- p.1, p.2))
              | String "+" t' => int_body false 0 0 t'
              | _ => int_body false 0 0 (String c ds)
              end = int_body false 0 0 (String c ds)).
  { destruct c as [[] [] [] [] [] [] [] []]; try reflexivity; congruence. }
  rewrite E, (int_body_digits (String c ds) Hds false 0 0) by (left; discriminate).
  reflexivity.
Qed.

(** X17. A limit typed as digits is taken at its value when it has at
    most 4300 digits: the text gives the number it writes, clamped into
    1..250.  A longer text of digits makes [int] raise [ValueError] and
    gives the default 50. *)
Theorem digit_limit_is_taken_at_its_value (ds : string) :
  ds <> EmptyString -> Spec.all_digits ds = true ->
  ControlPanel._normalize_limit (Some ds)
  = Ok (if (max_str_digits <? String.length ds)%nat then 50
        else Spec.clamp (digits_value ds)).
Proof.
  intros Hne Hds. rewrite normalize_limit_value, (int_of_digit_text ds Hne Hds).
  unfold int_of_digits.
  destruct (max_str_digits <? String.length ds)%nat; [reflexivity|].
  rewrite max_min_clamp. reflexivity.
Qed.

Lemma digit_limit_is_taken_at_its_value_witness :
  ControlPanel._normalize_limit (Some "0025"%string) = Ok 25
  /\ ControlPanel._normalize_limit (Some (Samples.nines 4301)) = Ok 50.
Proof.
  split.
  - apply (digit_limit_is_taken_at_its_value "0025").
    + discriminate.
    + reflexivity.
  - rewrite (digit_limit_is_taken_at_its_value (Samples.nines 4301)).
    + vm_compute. reflexivity.
    + discriminate.
    + vm_compute. reflexivity.
Defined.

(** ** Repeated anchors *)

(** X18. In the Flask parser the first anchor of an identifier, in the
    order of the page, gives its rank, whatever anchors follow: when the
    rank loop returns an index, the entry of the identifier is the number
    that anchor writes. *)
Theorem flask_keeps_first_anchor (html : string) (index : gmap string Z)
    (pre post : list (string * string)) (t ds : string) :
  ControlPanel.rank_index html = Ok index ->
  findall match_anchor html = pre ++ (t, ds) :: post ->
  t ∉ pre.*1 ->
  index !! t = Some (digits_value ds).
Proof. apply flask_rank_index_first_wins. Qed.

Lemma flask_keeps_first_anchor_witness :
  ({["tt0111161"%string := 1]} : gmap string Z) !! "tt0111161"%string
  = Some (digits_value "1").
Proof.
  apply (flask_keeps_first_anchor Samples.twice_linked_page
           {["tt0111161"%string := 1]} []
           [("tt0111161", "7")]%string "tt0111161" "1").
  - vm_compute. reflexivity.
  - vm_compute. reflexivity.
  - apply not_elem_of_nil.
Defined.

(** X19. The spider's rank loop raises exactly when a matching link
    carries more than 4300 digits, and then a [ValueError].  When it
    returns an index, the last link of an identifier gives its rank: a
    link is overwritten by every later link of the same identifier. *)
Theorem spider_keeps_last_link (response : Spider.Response) :
  (forall e : exn,
      Spider.rank_index response = Raise e
      <-> e = ValueError
          /\ exists href t ds,
              href ∈ Spider.hrefs response
              /\ search match_anchor href = Some (t, ds)
              /\ (max_str_digits < String.length ds)%nat)
  /\ (forall (index : gmap string Z) (pre post : list string) (href t ds : string),
        Spider.rank_index response = Ok index ->
        Spider.hrefs response = pre ++ href :: post ->
        search match_anchor href = Some (t, ds) ->
        Forall (fun h => forall p, search match_anchor h = Some p -> fst p <> t) post ->
        index !! t = Some (digits_value ds)).
Proof.
  split.
  - intros e. apply spider_rank_index_loop_raises.
  - intros index pre post href t ds. apply spider_rank_index_last_wins.
Qed.

Lemma spider_keeps_last_link_witness :
  ({["tt0111161"%string := 7]} : gmap string Z) !! "tt0111161"%string
  = Some (digits_value "7").
Proof.
  apply (proj2 (spider_keeps_last_link Samples.twice_linked_response)
           {["tt0111161"%string := 7]}
           ["/title/tt0111161/?ref_=chttp_t_1"%string] []
           "/title/tt0111161/?ref_=chttp_t_7" "tt0111161" "7").
  - vm_compute. reflexivity.
  - reflexivity.
  - vm_compute. reflexivity.
  - constructor.
Defined.
